(** * Mnemo: audio emotion classifier

    A shallow embedding of the training pipeline ([emotion_model/dataset.py],
    [emotion_model/train.py]) and of the serving pipeline
    ([ml_model/emotion_classifier.py], [ml_model/classify_audio.py]).

    Conventions.
    - Python floats are idealised as exact rationals ([Q]); every comparison
      and every arithmetic step of the scripts is kept, rounding is not.
    - A NumPy 2-D array is a list of rows ([ndarray2]); its shape is stated
      with [has_shape], which also covers arrays without rows.
    - Calls that may raise return a [result]; [Raise] carries an instance of
      a subclass of Python's [Exception].
    - The numerical kernels of librosa, NumPy's generator, TensorFlow and the
      file system are parameters, collected in records; what the scripts do
      with their results is written out. *)

From Stdlib Require Import QArith Qround ZArith List String Lia Lqa.
From stdpp Require Import base gmap strings list.

(** ** Python runtime fragments *)

Module py.

(** Exceptions deriving from [Exception]. *)
Inductive exn : Type :=
  | KeyError (key : string)
  | IndexError (msg : string)
  | ValueError (msg : string)
  | LibraryError (msg : string).

(** [str(e)]: a [KeyError] prints the repr of its key. *)
Definition str (e : exn) : string :=
  match e with
  | KeyError k => String.append "'" (String.append k "'")
  | IndexError m | ValueError m | LibraryError m => m
  end.

Inductive result (A : Type) : Type :=
  | Ok (a : A)
  | Raise (e : exn).
Arguments Ok {A} a.
Arguments Raise {A} e.

Definition bind {A B} (r : result A) (k : A -> result B) : result B :=
  match r with
  | Ok a => k a
  | Raise e => Raise e
  end.

Definition raises {A} (r : result A) : Prop :=
  match r with Ok _ => False | Raise _ => True end.

Definition returns {A} (r : result A) : Prop :=
  match r with Ok _ => True | Raise _ => False end.

(** [l[i]] on a Python list: negative indices count from the end, anything
    outside [-len, len) raises [IndexError]. *)
Definition getitem {A} (l : list A) (i : Z) : result A :=
  let n := Z.of_nat (length l) in
  let j := if (i <? 0)%Z then (n + i)%Z else i in
  if ((0 <=? j)%Z && (j <? n)%Z)%bool then
    match l !! Z.to_nat j with
    | Some x => Ok x
    | None => Raise (IndexError "list index out of range")
    end
  else Raise (IndexError "list index out of range").

(** [enumerate(l)]. *)
Definition enumerate {A} (l : list A) : list (nat * A) :=
  imap (fun i x => (i, x)) l.

(** A dict built from key/value pairs in order; a later pair overwrites an
    earlier one with the same key. *)
Definition dict_of_pairs {K V} `{Countable K} (l : list (K * V)) : gmap K V :=
  fold_left (fun m kv => <[kv.1 := kv.2]> m) l ∅.

(** [d[k]] on a dict with string keys. *)
Definition dict_getitem {V} (d : gmap string V) (k : string) : result V :=
  match d !! k with
  | Some v => Ok v
  | None => Raise (KeyError k)
  end.

End py.

#[export] Instance result_ret : MRet py.result := @py.Ok.
#[export] Instance result_bind : MBind py.result :=
  fun A B k r => py.bind r k.

(** ** NumPy fragments *)

Module np.

Definition ndarray1 : Type := list Q.
Definition ndarray2 : Type := list (list Q).

(** [a.shape == (r, c)] for a 2-D array. *)
Definition has_shape (r c : nat) (a : ndarray2) : Prop :=
  length a = r /\ Forall (fun row => length row = c) a.

(** [np.zeros(n)]. *)
Definition zeros (n : nat) : ndarray1 := repeat 0%Q n.

(** [np.pad(a, (0, k), mode='constant')] on a 1-D array. *)
Definition pad_end (a : ndarray1) (k : nat) : ndarray1 := a ++ repeat 0%Q k.

(** [a[start:start+len]] for [0 <= start]. *)
Definition slice (a : ndarray1) (start len : nat) : ndarray1 :=
  firstn len (skipn start a).

(** [np.pad(a, ((0, 0), (0, k)), mode='constant')] on a 2-D array. *)
Definition pad_cols (a : ndarray2) (k : nat) : ndarray2 :=
  map (fun row => row ++ repeat 0%Q k) a.

(** [a[:, :n]]. *)
Definition take_cols (a : ndarray2) (n : nat) : ndarray2 :=
  map (firstn n) a.

(** [a.shape[1]]; rows of an array have one length, the first row gives it. *)
Definition shape1 (a : ndarray2) : nat :=
  match a with
  | [] => 0
  | row :: _ => length row
  end.

(** Elementwise [a + b] and [a * g]. *)
Definition add_cells (a : ndarray2) (b : nat -> nat -> Q) : ndarray2 :=
  imap (fun i row => imap (fun j x => (x + b i j)%Q) row) a.

Definition scale (a : ndarray2) (g : Q) : ndarray2 :=
  map (map (fun x => (x * g)%Q)) a.

(** [a[:, s:s+w] = 0]: the slice is clipped to the array. *)
Definition zero_cols (a : ndarray2) (s w : nat) : ndarray2 :=
  map (imap (fun j x => if ((s <=? j) && (j <? s + w))%bool then 0%Q else x)) a.

(** [a[s:s+h, :] = 0]. *)
Definition zero_rows (a : ndarray2) (s h : nat) : ndarray2 :=
  imap (fun i row =>
          if ((s <=? i) && (i <? s + h))%bool then map (fun _ => 0%Q) row else row) a.

(** [a.min()] and [a.max()] over all cells; [None] on an array without
    cells, where NumPy raises [ValueError]. *)
Definition cells (a : ndarray2) : list Q := concat a.

Definition Qminimum (x y : Q) : Q := if Qle_bool x y then x else y.
Definition Qmaximum (x y : Q) : Q := if Qle_bool x y then y else x.

Definition amin (a : ndarray2) : option Q :=
  match cells a with
  | [] => None
  | x :: xs => Some (fold_left Qminimum xs x)
  end.

Definition amax (a : ndarray2) : option Q :=
  match cells a with
  | [] => None
  | x :: xs => Some (fold_left Qmaximum xs x)
  end.

End np.

(** [int(x)] on a float: truncation toward zero. *)
Definition int_of_float (x : Q) : Z := Z.quot (Qnum x) (Zpos (Qden x)).

(** [np.random.randint(lo, hi)] as a function of the generator's raw output:
    a value of [lo, hi); every call of the scripts has [lo < hi]. *)
Definition randint (raw lo hi : nat) : nat := lo + raw mod (hi - lo).

(** ** librosa: the kernels the scripts call *)

Module librosa.

Record kernels : Type := {
  (** [librosa.load(path, sr=sr, mono=True, duration=d)]: the decoded
      samples, or the exception of the decoder. *)
  load : string -> nat -> option Q -> py.result np.ndarray1;
  (** [librosa.util.normalize(y)]. *)
  normalize : np.ndarray1 -> np.ndarray1;
  (** Power of mel band [i] in frame [j] of signal [y], for the given
      sample rate, FFT size, hop length and band edges. *)
  mel_power : nat -> nat -> nat -> option (nat * nat) -> np.ndarray1 -> nat -> nat -> Q;
  (** dB value of one power cell of [S] under [ref=np.max] and the default
      [top_db]; it depends on the whole array through its peak. *)
  db_scale : np.ndarray2 -> Q -> Q
}.

(** Number of frames of a centred short-time transform. *)
Definition n_frames (len hop_length : nat) : nat := 1 + len / hop_length.

(** [librosa.feature.melspectrogram]: an array of [n_mels] rows and
    [n_frames] columns. *)
Definition melspectrogram (K : kernels) (y : np.ndarray1)
    (sr n_mels n_fft hop_length : nat) (band : option (nat * nat)) : np.ndarray2 :=
  map (fun i => map (fun j => mel_power K sr n_fft hop_length band y i j)
                    (seq 0 (n_frames (length y) hop_length)))
      (seq 0 n_mels).

(** [librosa.power_to_db(S, ref=np.max)]: cell by cell, same shape. *)
Definition power_to_db (K : kernels) (S : np.ndarray2) : np.ndarray2 :=
  map (map (db_scale K S)) S.

End librosa.

(** ** emotion_model/dataset.py *)

Module dataset.

(** One record of [df.to_dict('records')]. *)
Record sample : Type := { path : string; label : string }.

Record AudioEmotionDataset : Type := {
  data_dir : string;
  n_mels : nat;
  time_steps : nat;
  sample_rate : nat;
  use_augmentation : bool;
  samples : list sample;
  emotion_classes : list string;
  emotion_to_idx : gmap string nat
}.

Definition set_use_augmentation (b : bool) (self : AudioEmotionDataset)
    : AudioEmotionDataset :=
  {| data_dir := data_dir self; n_mels := n_mels self;
     time_steps := time_steps self; sample_rate := sample_rate self;
     use_augmentation := b; samples := samples self;
     emotion_classes := emotion_classes self;
     emotion_to_idx := emotion_to_idx self |}.

(** Lines printed by [__init__]. *)
Inductive printed : Type :=
  | Loaded (n : nat)
  | ClassDistribution
  | ClassCount (emotion : string) (count : nat).

(** The values [_augment] obtains from [np.random], in call order. *)
Record draws : Type := {
  noise : nat -> nat -> Q;      (* np.random.normal(0, 0.01, shape), per cell *)
  gain : Q;                     (* np.random.uniform(0.9, 1.1) *)
  time_gate : Q;                (* np.random.random() *)
  time_width_raw : nat;         (* randint(1, 5) *)
  time_start_raw : nat;         (* randint(0, max(1, time_steps - width)) *)
  freq_gate : Q;                (* np.random.random() *)
  freq_height_raw : nat;        (* randint(1, 8) *)
  freq_start_raw : nat          (* randint(0, max(1, n_mels - height)) *)
}.

Section Dataset.

Variable K : librosa.kernels.
(** [pd.read_csv(csv_path)] followed by [to_dict('records')]. *)
Variable read_csv : string -> py.result (list sample).
(** [Path(data_dir) / p]. *)
Variable path_join : string -> string -> string.

(** [sum(1 for s in self.samples if s['label'] == emotion)]. *)
Definition class_count (rows : list sample) (emotion : string) : nat :=
  length (filter (fun s => label s = emotion) rows).

(** [AudioEmotionDataset.__init__]: the object and what it prints. *)
Definition __init__ (csv_path data_dir_ : string)
    (n_mels_ time_steps_ sample_rate_ : nat) (use_augmentation_ : bool)
    : py.result (AudioEmotionDataset * list printed) :=
  rows ← read_csv csv_path;
  let classes := ["happy"; "sad"; "angry"; "surprised"; "neutral"]%string in
  let to_idx := py.dict_of_pairs (map (fun p => (p.2, p.1)) (py.enumerate classes)) in
  let self :=
    {| data_dir := data_dir_; n_mels := n_mels_; time_steps := time_steps_;
       sample_rate := sample_rate_; use_augmentation := use_augmentation_;
       samples := rows; emotion_classes := classes; emotion_to_idx := to_idx |} in
  py.Ok (self,
         Loaded (length rows) :: ClassDistribution ::
         map (fun emotion => ClassCount emotion (class_count rows emotion)) classes).

(** [__len__]. *)
Definition __len__ (self : AudioEmotionDataset) : nat := length (samples self).

(** [int(self.sample_rate * (self.time_steps * 0.01))]. *)
Definition target_length (self : AudioEmotionDataset) : nat :=
  Z.to_nat (int_of_float (inject_Z (Z.of_nat (sample_rate self))
                          * (inject_Z (Z.of_nat (time_steps self)) * (1 # 100)))).

(** The buffer handed to the spectrogram: decoded or silent, then padded to
    one second, then trimmed from the centre or padded to the target. *)
Definition prepare_audio (self : AudioEmotionDataset) (loaded : py.result np.ndarray1)
    : np.ndarray1 :=
  let audio :=
    match loaded with
    | py.Ok a => a
    | py.Raise _ => np.zeros (sample_rate self * 2)
    end in
  let min_length := Z.to_nat (int_of_float (inject_Z (Z.of_nat (sample_rate self)) * 1)) in
  let audio :=
    if length audio <? min_length
    then np.pad_end audio (min_length - length audio) else audio in
  let target := target_length self in
  if target <? length audio
  then np.slice audio ((length audio - target) / 2) target
  else np.pad_end audio (target - length audio).

(** Pad or trim the time axis to [time_steps] columns. *)
Definition fit_time_axis (time_steps_ : nat) (log_mel_spec : np.ndarray2) : np.ndarray2 :=
  if np.shape1 log_mel_spec <? time_steps_
  then np.pad_cols log_mel_spec (time_steps_ - np.shape1 log_mel_spec)
  else if time_steps_ <? np.shape1 log_mel_spec
       then np.take_cols log_mel_spec time_steps_
       else log_mel_spec.

(** The log-mel spectrogram before the time axis is fitted. *)
Definition log_mel (self : AudioEmotionDataset) (audio : np.ndarray1) : np.ndarray2 :=
  let audio := librosa.normalize K audio in
  let mel_spec :=
    librosa.melspectrogram K audio (sample_rate self) (n_mels self) 2048 512
                           (Some (0, sample_rate self / 2)) in
  librosa.power_to_db K mel_spec.

(** [AudioEmotionDataset._load_and_preprocess]. *)
Definition _load_and_preprocess (self : AudioEmotionDataset) (audio_path : string)
    : np.ndarray2 :=
  let loaded := librosa.load K audio_path (sample_rate self) None in
  fit_time_axis (time_steps self) (log_mel self (prepare_audio self loaded)).

(** [AudioEmotionDataset._augment]. *)
Definition _augment (self : AudioEmotionDataset) (d : draws) (spectrogram : np.ndarray2)
    : np.ndarray2 :=
  let spectrogram := np.add_cells spectrogram (noise d) in
  let spectrogram := np.scale spectrogram (gain d) in
  let spectrogram :=
    if negb (Qle_bool (time_gate d) (1 # 2)) then
      let mask_width := randint (time_width_raw d) 1 5 in
      let mask_start := randint (time_start_raw d) 0 (Nat.max 1 (time_steps self - mask_width)) in
      np.zero_cols spectrogram mask_start mask_width
    else spectrogram in
  if negb (Qle_bool (freq_gate d) (1 # 2)) then
    let mask_height := randint (freq_height_raw d) 1 8 in
    let mask_start := randint (freq_start_raw d) 0 (Nat.max 1 (n_mels self - mask_height)) in
    np.zero_rows spectrogram mask_start mask_height
  else spectrogram.

(** [AudioEmotionDataset.__getitem__]. *)
Definition __getitem__ (self : AudioEmotionDataset) (idx : Z) (d : draws)
    : py.result (np.ndarray2 * nat) :=
  sample ← py.getitem (samples self) idx;
  let audio_path := path_join (data_dir self) (path sample) in
  label ← py.dict_getitem (emotion_to_idx self) (label sample);
  let spectrogram := _load_and_preprocess self audio_path in
  let spectrogram :=
    if use_augmentation self then _augment self d spectrogram else spectrogram in
  py.Ok (spectrogram, label).

End Dataset.

End dataset.

(** ** torch.utils.data: views on a shared dataset object *)

Module torch.

(** Objects live in a store; a [Subset] holds a reference to its dataset,
    not a copy of it. *)
Abbreviation store := (gmap nat dataset.AudioEmotionDataset).

Record Subset : Type := { dataset : nat; indices : list nat }.

(** [random_split(ds, [n1, n2], generator)]: both subsets refer to [ds];
    [perm] is [randperm(n1 + n2, generator)]. *)
Definition random_split (ds : nat) (n1 n2 : nat) (perm : list nat) : Subset * Subset :=
  ({| dataset := ds; indices := firstn n1 perm |},
   {| dataset := ds; indices := firstn n2 (skipn n1 perm) |}).

Section Subset.

Variable K : librosa.kernels.
Variable path_join : string -> string -> string.

(** [Subset.__getitem__]: [self.dataset[self.indices[idx]]]. *)
Definition Subset_getitem (h : store) (self : Subset) (idx : Z) (d : dataset.draws)
    : py.result (np.ndarray2 * nat) :=
  i ← py.getitem (indices self) idx;
  match h !! dataset self with
  | Some ds => dataset.__getitem__ K path_join ds (Z.of_nat i) d
  | None => py.Raise (py.LibraryError "dangling reference")
  end.

End Subset.

End torch.

(** ** emotion_model/train.py *)

Module train.

Definition EMOTION_CLASSES : list string :=
  ["happy"; "sad"; "angry"; "surprised"; "neutral"]%string.

Definition EMOTION_TO_IDX : gmap string nat :=
  py.dict_of_pairs (map (fun p => (p.2, p.1)) (py.enumerate EMOTION_CLASSES)).

Definition IDX_TO_EMOTION : gmap nat string :=
  py.dict_of_pairs (map (fun p => (p.2, p.1)) (map_to_list EMOTION_TO_IDX)).

(** The parsed command line. *)
Record args : Type := {
  data_dir : string;
  csv_path : string;
  epochs : nat;
  val_split : Q;
  n_mels : nat;
  time_steps : nat;
  sample_rate : nat;
  use_augmentation : bool;
  early_stopping_patience : Z
}.

Section Data.

Variable K : librosa.kernels.
Variable read_csv : string -> py.result (list dataset.sample).
Variable path_join : string -> string -> string.
(** [torch.randperm(n, generator=torch.Generator().manual_seed(42))]. *)
Variable randperm : nat -> list nat.

(** Address of the object bound to [full_dataset]. *)
Definition full_dataset : nat := 0.

(** [main], from "Load dataset" to the two loaders: the store and the
    subsets the loaders read from. The sizes are those of the script for a
    split ratio between 0 and 1. *)
Definition main_datasets (a : args)
    : py.result (torch.store * torch.Subset * torch.Subset) :=
  '(ds, _) ← dataset.__init__ read_csv (csv_path a) (data_dir a)
                (n_mels a) (time_steps a) (sample_rate a) (use_augmentation a);
  let h : torch.store := {[ full_dataset := ds ]} in
  let val_size :=
    Z.to_nat (int_of_float (inject_Z (Z.of_nat (dataset.__len__ ds)) * val_split a)) in
  let train_size := dataset.__len__ ds - val_size in
  let '(train_dataset, val_dataset) :=
    torch.random_split full_dataset train_size val_size
                       (randperm (train_size + val_size)) in
  (* val_dataset.dataset.use_augmentation = False *)
  let h := alter (dataset.set_use_augmentation false) (torch.dataset val_dataset) h in
  py.Ok (h, train_dataset, val_dataset).

End Data.

(** What one pass of [train_epoch] and [validate] reports. *)
Record epoch_metrics : Type := {
  train_loss : Q;
  train_acc : Q;
  val_loss : Q;
  val_acc : Q
}.

(** The dictionary written to [best_model.pth], without the opaque weights. *)
Record checkpoint : Type := {
  ck_epoch : nat;
  ck_val_acc : Q;
  ck_n_mels : nat;
  ck_time_steps : nat
}.

Record loop_state : Type := {
  best_val_acc : Q;
  patience_counter : Z;
  train_history : list epoch_metrics;
  best_model_pth : option checkpoint
}.

Inductive control : Type := Next | Break.

(** How the [for] loop ended. *)
Record loop_end : Type := {
  final : loop_state;
  epochs_run : nat;
  early_stopped : bool
}.

Section Loop.

Variable a : args.
(** Metrics of epoch [epoch] (0-based), as the model under training
    produces them. *)
Variable run_epoch : nat -> epoch_metrics.

Definition initial_state : loop_state :=
  {| best_val_acc := 0; patience_counter := 0;
     train_history := []; best_model_pth := None |}.

(** The body of [for epoch in range(args.epochs)]. *)
Definition epoch_body (epoch : nat) (s : loop_state) : loop_state * control :=
  let m := run_epoch epoch in
  let history := train_history s ++ [m] in
  if negb (Qle_bool (val_acc m) (best_val_acc s)) then
    (* val_acc > best_val_acc *)
    ({| best_val_acc := val_acc m; patience_counter := 0;
        train_history := history;
        best_model_pth :=
          Some {| ck_epoch := epoch; ck_val_acc := val_acc m;
                  ck_n_mels := n_mels a; ck_time_steps := time_steps a |} |},
     Next)
  else
    let counter := (patience_counter s + 1)%Z in
    ({| best_val_acc := best_val_acc s; patience_counter := counter;
        train_history := history; best_model_pth := best_model_pth s |},
     if (early_stopping_patience a <=? counter)%Z then Break else Next).

(** The loop from epoch [epoch] on, with [remaining] iterations left. *)
Fixpoint for_epochs (remaining epoch : nat) (s : loop_state) : loop_end :=
  match remaining with
  | O => {| final := s; epochs_run := epoch; early_stopped := false |}
  | S remaining' =>
      match epoch_body epoch s with
      | (s', Break) => {| final := s'; epochs_run := S epoch; early_stopped := true |}
      | (s', Next) => for_epochs remaining' (S epoch) s'
      end
  end.

Definition training_loop : loop_end := for_epochs (epochs a) 0 initial_state.

End Loop.

(** Metrics whose validation accuracies follow a given sequence. *)
Definition metrics_of_val_accs (accs : list Q) (epoch : nat) : epoch_metrics :=
  {| train_loss := 0; train_acc := 0; val_loss := 0;
     val_acc := nth epoch accs 0%Q |}.

End train.

(** ** ml_model: emotion_classifier.py and classify_audio.py *)

Module ml_model.

(** *** emotion_classifier.py *)

Definition SAMPLE_RATE : nat := 16000.
Definition DURATION : Q := 1.
Definition N_MELS : nat := 64.
Definition N_FFT : nat := 2048.
Definition HOP_LENGTH : nat := 512.
Definition N_FRAMES : nat :=
  Z.to_nat (int_of_float (inject_Z (Z.of_nat SAMPLE_RATE) * DURATION
                          / inject_Z (Z.of_nat HOP_LENGTH))) + 1.

Definition EMOTIONS : list string :=
  ["happy"; "sad"; "angry"; "surprised"; "neutral"]%string.

(** The dictionaries handed to [json.dumps]: keys in insertion order, with
    string and number values. *)
Inductive jvalue : Type :=
  | JString (s : string)
  | JNumber (q : Q).

Definition json : Type := list (string * jvalue).

(** A line written to standard output. *)
Inductive line : Type :=
  | ModelNotFound (model_path : string)
  | UsingStub
  | LoadingModel (model_path : string)
  | ModelLoaded
  | TestAccuracy (acc : Q)
  | MetadataNotFound
  | ErrorLoadingModel (msg : string)
  | ErrorExtracting (audio_path msg : string)
  | Json (j : json).

(** The content of [metadata.json] the module reads. *)
Record metadata_json : Type := { test_accuracy : option Q }.

(** A batch of feature maps: (batch, height, width, channels). *)
Definition ndarray4 : Type := list (list (list (list Q))).

(** What the process is linked against: librosa, TensorFlow, the file
    system and NumPy's global generator. *)
Record environment (keras_model rng : Type) : Type := {
  K : librosa.kernels;
  (** [tf.keras.models.load_model] and the loaded model's [predict]. *)
  load_keras_model : string -> py.result keras_model;
  predict : keras_model -> ndarray4 -> py.result (list (list Q));
  (** [Path.exists] and [json.load] on an opened file. *)
  path_exists : string -> py.result bool;
  json_load : string -> py.result metadata_json;
  (** [Path(p).parent / name]. *)
  sibling : string -> string -> string;
  (** The generator's next raw output and next state. *)
  next_raw : rng -> nat * rng
}.
Arguments K {keras_model rng} _.
Arguments load_keras_model {keras_model rng} _ _.
Arguments predict {keras_model rng} _ _ _.
Arguments path_exists {keras_model rng} _ _.
Arguments json_load {keras_model rng} _ _.
Arguments sibling {keras_model rng} _ _ _.
Arguments next_raw {keras_model rng} _ _.

Section Serving.

Context {keras_model rng : Type}.
Variable E : environment keras_model rng.

Record EmotionClassifier : Type := {
  model_path : string;
  model : option keras_model;
  metadata : option metadata_json
}.

(** Process state: the generator, standard output, the module global. *)
Record process : Type := {
  random_state : rng;
  stdout : list line;
  _classifier : option EmotionClassifier
}.

(** Computations that read and write the process state and may raise. *)
Definition M (A : Type) : Type := process -> py.result A * process.

#[local] Instance M_ret : MRet M := fun A a s => (py.Ok a, s).
#[local] Instance M_bind : MBind M := fun A B k c s =>
  match c s with
  | (py.Ok a, s') => k a s'
  | (py.Raise e, s') => (py.Raise e, s')
  end.

Definition lift {A} (r : py.result A) : M A := fun s => (r, s).

Definition print (l : line) : M unit := fun s =>
  (py.Ok tt, {| random_state := random_state s; stdout := stdout s ++ [l];
                _classifier := _classifier s |}).

Definition draw : M nat := fun s =>
  let '(raw, g) := next_raw E (random_state s) in
  (py.Ok raw, {| random_state := g; stdout := stdout s;
                 _classifier := _classifier s |}).

(** [try: body except Exception as e: handler e]. *)
Definition try_except {A} (body : M A) (handler : py.exn -> M A) : M A := fun s =>
  match body s with
  | (py.Ok a, s') => (py.Ok a, s')
  | (py.Raise e, s') => handler e s'
  end.

(** [np.random.choice(l)]: a uniformly drawn element. *)
Definition random_choice (l : list string) : M string :=
  raw ← draw;
  match l !! (raw mod length l) with
  | Some x => mret x
  | None => lift (py.Raise (py.ValueError "a must be non-empty"))
  end.

(** [np.random.random()]: a multiple of 2^-53 in [0, 1). *)
Definition random_random : M Q :=
  raw ← draw;
  mret (Z.of_nat raw mod 2 ^ 53 # 2 ^ 53)%Z.

(** [Path(__file__).parent / 'saved_model' / 'emotion_model.h5']. *)
Definition default_model_path : string := "saved_model/emotion_model.h5".

(** [self.model_path.parent / 'metadata.json']. *)
Definition metadata_path (self_model_path : string) : string :=
  sibling E self_model_path "metadata.json".

Definition set_model (m : option keras_model) (self : EmotionClassifier)
    : EmotionClassifier :=
  {| model_path := model_path self; model := m; metadata := metadata self |}.

Definition set_metadata (md : option metadata_json) (self : EmotionClassifier)
    : EmotionClassifier :=
  {| model_path := model_path self; model := model self; metadata := md |}.

(** The [except] clause of [load_model]. *)
Definition load_model_failed (self : EmotionClassifier) (e : py.exn)
    : M EmotionClassifier :=
  print (ErrorLoadingModel (py.str e));;
  mret (set_model None self).

(** [EmotionClassifier.load_model]; [self] is returned with the fields the
    method assigned, also those assigned before an exception. *)
Definition load_model (self : EmotionClassifier) : M EmotionClassifier :=
  print (LoadingModel (model_path self));;
  match load_keras_model E (model_path self) with
  | py.Raise e => load_model_failed self e
  | py.Ok m =>
      let self := set_model (Some m) self in
      match path_exists E (metadata_path (model_path self)) with
      | py.Raise e => load_model_failed self e
      | py.Ok false => print MetadataNotFound;; mret self
      | py.Ok true =>
          match json_load E (metadata_path (model_path self)) with
          | py.Raise e => load_model_failed self e
          | py.Ok md =>
              let self := set_metadata (Some md) self in
              print ModelLoaded;;
              match test_accuracy md with
              | Some acc => print (TestAccuracy acc);; mret self
              | None =>
                  (* 'N/A' does not accept the format code '.2%' *)
                  load_model_failed self (py.ValueError "Invalid format specifier")
              end
          end
      end
  end.

(** [EmotionClassifier.__init__]. *)
Definition __init__ (model_path_ : option string) : M EmotionClassifier :=
  let p := match model_path_ with Some p => p | None => default_model_path end in
  let self := {| model_path := p; model := None; metadata := None |} in
  found ← lift (path_exists E p);
  if (found : bool) then load_model self
  else print (ModelNotFound p);; print UsingStub;; mret self.

(** Min-max normalisation of the dB spectrogram. *)
Definition min_max (mel_spec_db : np.ndarray2) : py.result np.ndarray2 :=
  match np.amin mel_spec_db, np.amax mel_spec_db with
  | Some lo, Some hi =>
      py.Ok (map (map (fun x => ((x - lo) / (hi - lo + (1 # 100000000)))%Q)) mel_spec_db)
  | _, _ => py.Raise (py.ValueError "zero-size array to reduction operation")
  end.

(** The [try] block of [extract_features]. *)
Definition extract_features_body (audio_path : string) : py.result ndarray4 :=
  y ← librosa.load (K E) audio_path SAMPLE_RATE (Some DURATION);
  let target_length := Z.to_nat (int_of_float (inject_Z (Z.of_nat SAMPLE_RATE) * DURATION)) in
  let y :=
    if length y <? target_length
    then np.pad_end y (target_length - length y)
    else firstn target_length y in
  let mel_spec := librosa.melspectrogram (K E) y SAMPLE_RATE N_MELS N_FFT HOP_LENGTH None in
  let mel_spec_db := librosa.power_to_db (K E) mel_spec in
  mel_spec_db ← min_max mel_spec_db;
  (* mel_spec_db[np.newaxis, ..., np.newaxis] *)
  py.Ok [map (map (fun x => [x])) mel_spec_db].

(** [EmotionClassifier.extract_features]. *)
Definition extract_features (audio_path : string) : M (option ndarray4) :=
  match extract_features_body audio_path with
  | py.Ok features => mret (Some features)
  | py.Raise e => print (ErrorExtracting audio_path (py.str e));; mret None
  end.

(** [EmotionClassifier._stub_classify]. *)
Definition _stub_classify : M (string * Q) :=
  emotion ← random_choice EMOTIONS;
  r ← random_random;
  let confidence := ((6 # 10) + r * (3 # 10))%Q in
  mret (emotion, confidence).

(** [np.argmax]: the first index of the largest value. *)
Fixpoint argmax_from (best_i : nat) (best : Q) (i : nat) (l : list Q) : nat :=
  match l with
  | [] => best_i
  | x :: l' =>
      if Qle_bool x best then argmax_from best_i best (S i) l'
      else argmax_from i x (S i) l'
  end.

Definition argmax (l : list Q) : py.result nat :=
  match l with
  | [] => py.Raise (py.ValueError "attempt to get argmax of an empty sequence")
  | x :: l' => py.Ok (argmax_from 0 x 1 l')
  end.

(** [EmotionClassifier.classify]. *)
Definition classify (self : EmotionClassifier) (audio_path : string) : M (string * Q) :=
  match model self with
  | None => _stub_classify
  | Some m =>
      features ← extract_features audio_path;
      match features with
      | None => _stub_classify
      | Some features =>
          predictions ← lift (predict E m features);
          row ← lift (py.getitem predictions 0);
          emotion_idx ← lift (argmax row);
          confidence ← lift (py.getitem row (Z.of_nat emotion_idx));
          emotion ← lift (py.getitem EMOTIONS (Z.of_nat emotion_idx));
          mret (emotion, confidence)
      end
  end.

(** [get_classifier]: the module-level instance, created on first use. *)
Definition get_classifier : M EmotionClassifier := fun s =>
  match _classifier s with
  | Some c => (py.Ok c, s)
  | None =>
      match __init__ None s with
      | (py.Ok c, s') =>
          (py.Ok c, {| random_state := random_state s'; stdout := stdout s';
                       _classifier := Some c |})
      | (py.Raise e, s') => (py.Raise e, s')
      end
  end.

(** Successive calls of [classify] on one object. *)
Fixpoint classify_each (self : EmotionClassifier) (audio_paths : list string)
    : M (list (string * Q)) :=
  match audio_paths with
  | [] => mret []
  | p :: ps =>
      r ← classify self p;
      rs ← classify_each self ps;
      mret (r :: rs)
  end.

(** *** classify_audio.py *)

Definition error_payload (msg : string) : json :=
  [("error", JString msg); ("emotion", JString "neutral");
   ("confidence", JNumber (1 # 2))]%string.

Definition result_payload (emotion : string) (confidence : Q) : json :=
  [("emotion", JString emotion); ("confidence", JNumber confidence)]%string.

(** [main]; the value is the status passed to [sys.exit], 0 when [main]
    returns. *)
Definition main (argv : list string) : M Z :=
  if length argv <? 2 then
    print (Json (error_payload "Audio path required"));;
    mret 1%Z
  else
    audio_path ← lift (py.getitem argv 1);
    try_except
      (classifier ← get_classifier;
       '(emotion, confidence) ← classify classifier audio_path;
       print (Json (result_payload emotion confidence));;
       mret 0%Z)
      (fun e =>
         print (Json (error_payload (py.str e)));;
         mret 1%Z).

(** How the process ends. *)
Inductive outcome : Type :=
  | Exited (status : Z)
  | Unhandled (e : py.exn).

Definition run_script (argv : list string) (s : process) : outcome * list line :=
  match main argv s with
  | (py.Ok status, s') => (Exited status, stdout s')
  | (py.Raise e, s') => (Unhandled e, stdout s')
  end.

End Serving.

End ml_model.

(** ** emotion_model/train.py: the validation pass and the loader it reads *)

Module train_eval.

(** What ends a pass early: Python's [ZeroDivisionError], or an exception
    raised while a batch is fetched. *)
Inductive error : Type :=
  | ZeroDivisionError
  | Exception (e : py.exn).

Inductive outcome (A : Type) : Type :=
  | Done (a : A)
  | Failed (e : error).
Arguments Done {A} a.
Arguments Failed {A} e.

(** One collated batch: the stacked spectrograms and their labels. *)
Record batch : Type := {
  spectrograms : list np.ndarray2;
  labels : list nat
}.


(** [sklearn.metrics.accuracy_score]: the fraction of equal positions. *)
Definition accuracy_score (y_true y_pred : list nat) : Q :=
  inject_Z (Z.of_nat (length (filter (fun p => p.1 = p.2) (zip y_true y_pred))))
  / inject_Z (Z.of_nat (length y_true)).

Section Loader.

Variable K : librosa.kernels.
Variable path_join : string -> string -> string.





End Loader.

Section Validate.

(** [model(x)] in evaluation mode, one sample at a time. *)
Variable forward : np.ndarray2 -> list Q.
(** [criterion(outputs, labels).item()]. *)
Variable criterion : list (list Q) -> list nat -> Q.
(** [sklearn.metrics.confusion_matrix]. *)
Variable confusion_matrix : list nat -> list nat -> list (list nat).

(** [torch.max(outputs, 1)[1]] on one row: the position of the largest
    logit (the first one, if several are equal). *)
Definition predicted_class (logits : list Q) : nat :=
  match logits with
  | [] => 0
  | x :: l => ml_model.argmax_from 0 x 1 l
  end.

(** The accumulators of the loop: running loss, predictions, labels. *)
Definition accumulate (acc : Q * list nat * list nat) (b : batch)
    : Q * list nat * list nat :=
  let '(running_loss, all_preds, all_labels) := acc in
  let outputs := map forward (spectrograms b) in
  let loss := criterion outputs (labels b) in
  ((running_loss + loss)%Q,
   all_preds ++ map predicted_class outputs,
   all_labels ++ labels b).

(** [validate], on the batches the loader yields. *)
Definition validate (batches : list batch) : outcome (Q * Q * list (list nat)) :=
  let '(running_loss, all_preds, all_labels) :=
    fold_left accumulate batches (0%Q, [], []) in
  if length batches =? 0 then Failed ZeroDivisionError
  else
    let epoch_loss := (running_loss / inject_Z (Z.of_nat (length batches)))%Q in
    let epoch_acc := accuracy_score all_labels all_preds in
    let cm := confusion_matrix all_labels all_preds in
    Done (epoch_loss, epoch_acc, cm).

Variable K : librosa.kernels.
Variable path_join : string -> string -> string.


End Validate.

End train_eval.

(** ** ml_model/train_emotion_model.py *)

Module train_emotion_model.

Definition SAMPLE_RATE : nat := 16000.
Definition DURATION : Q := 1.
Definition N_MELS : nat := 64.
Definition N_FFT : nat := 2048.
Definition HOP_LENGTH : nat := 512.
Definition N_FRAMES : nat :=
  Z.to_nat (int_of_float (inject_Z (Z.of_nat SAMPLE_RATE) * DURATION
                          / inject_Z (Z.of_nat HOP_LENGTH))) + 1.

Definition EMOTIONS : list string :=
  ["happy"; "sad"; "angry"; "surprised"; "neutral"]%string.
Definition N_CLASSES : nat := length EMOTIONS.

(** The values one synthetic sample obtains from [np.random], by cell of
    the drawn array. *)
Record synth_draws : Type := {
  band1 : nat -> nat -> Q;       (* first np.random.uniform of the branch *)
  band2 : nat -> nat -> Q;       (* second np.random.uniform of the branch *)
  spike_indices : list nat;      (* np.random.choice(N_FRAMES, size=5, replace=False) *)
  spikes : nat -> nat -> Q;      (* np.random.uniform(0.7, 1.0, (N_MELS, 5)) *)
  synth_noise : nat -> nat -> Q  (* np.random.normal(0, 0.05, shape) *)
}.

(** [np.zeros((r, c))]. *)
Definition zeros2 (r c : nat) : np.ndarray2 := repeat (repeat 0%Q c) r.

(** [a[lo:hi, :] = v] for [v] of shape (hi - lo, columns). *)
Definition assign_rows (a : np.ndarray2) (lo hi : nat) (v : nat -> nat -> Q)
    : np.ndarray2 :=
  imap (fun i row =>
          if ((lo <=? i) && (i <? hi))%bool
          then imap (fun j _ => v (i - lo) j) row else row) a.

(** Position of the last occurrence of [j] in [idx]. *)
Fixpoint last_position (j : nat) (idx : list nat) (k : nat) : option nat :=
  match idx with
  | [] => None
  | x :: idx' =>
      match last_position j idx' (S k) with
      | Some k' => Some k'
      | None => if x =? j then Some k else None
      end
  end.

(** [a[:, idx] = v] for a list [idx] of column indices within the array and
    [v] of shape (rows, len(idx)). *)
Definition assign_cols (a : np.ndarray2) (idx : list nat) (v : nat -> nat -> Q)
    : np.ndarray2 :=
  imap (fun i row =>
          imap (fun j x =>
                  match last_position j idx 0 with
                  | Some k => v i k
                  | None => x
                  end) row) a.

(** [np.clip(a, lo, hi)]. *)
Definition clip (a : np.ndarray2) (lo hi : Q) : np.ndarray2 :=
  map (map (fun x => np.Qminimum (np.Qmaximum x lo) hi)) a.

(** The body of the loop of [create_synthetic_audio_features]. *)
Definition synthetic_sample (emotion : string) (d : synth_draws) : np.ndarray2 :=
  let mel_spec := zeros2 N_MELS N_FRAMES in
  let mel_spec :=
    if String.eqb emotion "happy" then
      assign_rows (assign_rows mel_spec 30 50 (band1 d)) 10 30 (band2 d)
    else if String.eqb emotion "sad" then
      assign_rows (assign_rows mel_spec 0 20 (band1 d)) 20 40 (band2 d)
    else if String.eqb emotion "angry" then
      assign_rows mel_spec 0 N_MELS (band1 d)
    else if String.eqb emotion "surprised" then
      assign_cols (assign_rows mel_spec 0 N_MELS (band1 d))
                  (spike_indices d) (spikes d)
    else
      assign_rows mel_spec 0 N_MELS (band1 d) in
  let mel_spec := np.add_cells mel_spec (synth_noise d) in
  clip mel_spec 0 1.

(** [create_synthetic_audio_features]. *)
Definition create_synthetic_audio_features (emotion : string) (num_samples : nat)
    (d : nat -> synth_draws) : list np.ndarray2 :=
  map (fun k => synthetic_sample emotion (d k)) (seq 0 num_samples).

(** The [try] block of [extract_features_from_audio]. *)
Definition extract_features_from_audio_body (K : librosa.kernels)
    (audio_path : string) : py.result np.ndarray2 :=
  y ← librosa.load K audio_path SAMPLE_RATE (Some DURATION);
  let target_length :=
    Z.to_nat (int_of_float (inject_Z (Z.of_nat SAMPLE_RATE) * DURATION)) in
  let y :=
    if length y <? target_length
    then np.pad_end y (target_length - length y)
    else firstn target_length y in
  let mel_spec := librosa.melspectrogram K y SAMPLE_RATE N_MELS N_FFT HOP_LENGTH None in
  let mel_spec_db := librosa.power_to_db K mel_spec in
  match np.amin mel_spec_db, np.amax mel_spec_db with
  | Some lo, Some hi =>
      py.Ok (map (map (fun x => ((x - lo) / (hi - lo + (1 # 100000000)))%Q))
                 mel_spec_db)
  | _, _ => py.Raise (py.ValueError "zero-size array to reduction operation")
  end.

(** [extract_features_from_audio]: the features, or [None] with the line
    it prints. *)
Definition extract_features_from_audio (K : librosa.kernels) (audio_path : string)
    : option np.ndarray2 * list string :=
  match extract_features_from_audio_body K audio_path with
  | py.Ok mel_spec_db => (Some mel_spec_db, [])
  | py.Raise e =>
      (None, [String.append "Error processing "
                (String.append audio_path (String.append ": " (py.str e)))])
  end.

End train_emotion_model.

(** * Sample inputs and predicates used in the statements *)

Definition example_path_join (d p : string) : string :=
  String.append d (String.append "/" p).

(** Kernels that decode every file to the same short buffer. *)
Definition example_kernels : librosa.kernels :=
  {| librosa.load := fun _ _ _ => py.Ok [1 # 2; -(1 # 4); 1 # 8]%Q;
     librosa.normalize := fun y => y;
     librosa.mel_power := fun _ _ _ _ y i j => (inject_Z (Z.of_nat (i + j)) + 1)%Q;
     librosa.db_scale := fun _ x => (x - 80)%Q |}.

(** Kernels whose decoder always fails. *)
Definition failing_kernels : librosa.kernels :=
  {| librosa.load := fun _ _ _ => py.Raise (py.LibraryError "cannot decode");
     librosa.normalize := fun y => y;
     librosa.mel_power := fun _ _ _ _ y i j => (inject_Z (Z.of_nat (i + j)) + 1)%Q;
     librosa.db_scale := fun _ x => (x - 80)%Q |}.

Definition example_manifest : list dataset.sample :=
  [ {| dataset.path := "a.wav"; dataset.label := "sad" |};
    {| dataset.path := "b.wav"; dataset.label := "happy" |};
    {| dataset.path := "c.wav"; dataset.label := "angry" |};
    {| dataset.path := "d.wav"; dataset.label := "neutral" |};
    {| dataset.path := "e.wav"; dataset.label := "surprised" |} ].

Definition example_dataset : dataset.AudioEmotionDataset :=
  {| dataset.data_dir := "data"; dataset.n_mels := 2; dataset.time_steps := 3;
     dataset.sample_rate := 8; dataset.use_augmentation := true;
     dataset.samples :=
       [ {| dataset.path := "a.wav"; dataset.label := "sad" |};
         {| dataset.path := "b.wav"; dataset.label := "happy" |} ];
     dataset.emotion_classes := train.EMOTION_CLASSES;
     dataset.emotion_to_idx := train.EMOTION_TO_IDX |}.

(** Draws that perturb: noise 0.01 everywhere, gain 1.1, both masks taken. *)
Definition example_draws : dataset.draws :=
  {| dataset.noise := fun _ _ => 1 # 100; dataset.gain := 11 # 10;
     dataset.time_gate := 3 # 4; dataset.time_width_raw := 0;
     dataset.time_start_raw := 1;
     dataset.freq_gate := 3 # 4; dataset.freq_height_raw := 0;
     dataset.freq_start_raw := 1 |}.

(** Draws that do not. *)
Definition example_neutral_draws : dataset.draws :=
  {| dataset.noise := fun _ _ => 0%Q; dataset.gain := 1;
     dataset.time_gate := 1 # 4; dataset.time_width_raw := 0;
     dataset.time_start_raw := 0;
     dataset.freq_gate := 1 # 2; dataset.freq_height_raw := 0;
     dataset.freq_start_raw := 0 |}.

(** The draws under which [_augment] perturbs nothing: zero noise, unit
    gain, and both gate draws at most 0.5, so neither mask is applied. *)
Definition neutral_draws (d : dataset.draws) : Prop :=
  (forall i j, dataset.noise d i j = 0%Q) /\
  dataset.gain d = 1%Q /\
  (dataset.time_gate d <= 1 # 2)%Q /\
  (dataset.freq_gate d <= 1 # 2)%Q.

(** The run of the worked example: four epochs allowed, patience 2. *)
Definition example_args : train.args :=
  {| train.data_dir := "data"; train.csv_path := "data/labels.csv";
     train.epochs := 4; train.val_split := 1 # 5;
     train.n_mels := 64; train.time_steps := 100; train.sample_rate := 16000;
     train.use_augmentation := false; train.early_stopping_patience := 2 |}.

Definition example_val_accs : list Q := [1 # 2; 1 # 2; 2 # 5; 3 # 10].

(** A command line that requests augmentation. *)
Definition augmenting_args : train.args :=
  {| train.data_dir := "data"; train.csv_path := "data/labels.csv";
     train.epochs := 4; train.val_split := 1 # 5;
     train.n_mels := 2; train.time_steps := 3; train.sample_rate := 8;
     train.use_augmentation := true; train.early_stopping_patience := 5 |}.

(** A process without a saved model: file probes answer "absent". *)
Definition example_environment : ml_model.environment unit nat :=
  {| ml_model.K := example_kernels;
     ml_model.load_keras_model := fun _ => py.Ok tt;
     ml_model.predict := fun _ _ => py.Ok [[1 # 10; 6 # 10; 1 # 10; 1 # 10; 1 # 10]];
     ml_model.path_exists := fun _ => py.Ok false;
     ml_model.json_load := fun _ => py.Raise (py.LibraryError "no such file");
     ml_model.sibling := fun _ name => String.append "saved_model/" name;
     ml_model.next_raw := fun n => (7 * n + 3, S n) |}.

Definition example_process : @ml_model.process unit nat :=
  {| ml_model.random_state := 0; ml_model.stdout := [];
     ml_model._classifier := None |}.

Definition stub_classifier : @ml_model.EmotionClassifier unit :=
  {| ml_model.model_path := ml_model.default_model_path;
     ml_model.model := None; ml_model.metadata := None |}.


(** What holds of the loop state after [epoch] epochs: the history is that
    of the epochs run, the best accuracy bounds every accuracy seen, and the
    checkpoint, if one was written, is that of the first epoch that reached
    the best accuracy, followed by [patience_counter] epochs. *)
Definition loop_invariant (a : train.args) (run_epoch : nat -> train.epoch_metrics)
    (epoch : nat) (s : train.loop_state) : Prop :=
  train.train_history s = map run_epoch (seq 0 epoch) /\
  (0 <= train.best_val_acc s)%Q /\
  (forall e, e < epoch ->
     (train.val_acc (run_epoch e) <= train.best_val_acc s)%Q) /\
  match train.best_model_pth s with
  | None =>
      train.best_val_acc s = 0%Q /\
      train.patience_counter s = Z.of_nat epoch
  | Some ck =>
      train.ck_val_acc ck = train.best_val_acc s /\
      train.ck_epoch ck < epoch /\
      train.val_acc (run_epoch (train.ck_epoch ck)) = train.best_val_acc s /\
      (0 < train.best_val_acc s)%Q /\
      (forall e, e < train.ck_epoch ck ->
         (train.val_acc (run_epoch e) < train.best_val_acc s)%Q) /\
      train.patience_counter s = Z.of_nat (epoch - train.ck_epoch ck - 1) /\
      train.ck_n_mels ck = train.n_mels a /\
      train.ck_time_steps ck = train.time_steps a
  end.

(** At the head of the loop the counter is fresh or below the threshold. *)
Definition below_patience (a : train.args) (s : train.loop_state) : Prop :=
  (train.patience_counter s = 0 \/
   train.patience_counter s < train.early_stopping_patience a)%Z.

(** [a[i, j]], when the position exists. *)
Definition cell (a : list (list Q)) (i j : nat) : option Q :=
  match a !! i with
  | Some row => row !! j
  | None => None
  end.

(** Rows of a manifest whose label is none of the five classes. *)
Definition unknown_rows (rows : list dataset.sample) : list dataset.sample :=
  filter (fun s => dataset.label s ∉ train.EMOTION_CLASSES) rows.

(** The loss of one batch, as [validate] computes it. *)
Definition batch_loss (forward : np.ndarray2 -> list Q)
    (criterion : list (list Q) -> list nat -> Q) (b : train_eval.batch) : Q :=
  criterion (map forward (train_eval.spectrograms b)) (train_eval.labels b).

(** The sum of a list of rationals. *)
Definition Qsum (l : list Q) : Q := fold_right Qplus 0%Q l.

(** Whether a line of standard output is a JSON document. *)
Definition is_json (l : ml_model.line) : bool :=
  match l with
  | ml_model.Json _ => true
  | _ => false
  end.

(** A computation that only appends to standard output, and no JSON. *)
Definition appends_no_json {keras_model rng A : Type}
    (c : @ml_model.M keras_model rng A) : Prop :=
  forall s r s',
    c s = (r, s') ->
    exists extra,
      ml_model.stdout s' = ml_model.stdout s ++ extra /\
      Forall (fun l => is_json l = false) extra.

(** A classifier whose model is loaded. *)
Definition loaded_classifier : @ml_model.EmotionClassifier unit :=
  {| ml_model.model_path := ml_model.default_model_path;
     ml_model.model := Some tt; ml_model.metadata := None |}.

(** A process in which no audio file decodes. *)
Definition failing_environment : ml_model.environment unit nat :=
  {| ml_model.K := failing_kernels;
     ml_model.load_keras_model := fun _ => py.Ok tt;
     ml_model.predict := fun _ _ => py.Ok [[1 # 10; 6 # 10; 1 # 10; 1 # 10; 1 # 10]];
     ml_model.path_exists := fun _ => py.Ok false;
     ml_model.json_load := fun _ => py.Raise (py.LibraryError "no such file");
     ml_model.sibling := fun _ name => String.append "saved_model/" name;
     ml_model.next_raw := fun n => (7 * n + 3, S n) |}.

(** Draws for one synthetic sample. *)
Definition example_synth_draws : train_emotion_model.synth_draws :=
  {| train_emotion_model.band1 := fun i j => (inject_Z (Z.of_nat (i + j)) / 40)%Q;
     train_emotion_model.band2 := fun _ _ => 1 # 3;
     train_emotion_model.spike_indices := [3; 7; 11; 19; 30];
     train_emotion_model.spikes := fun _ k => (inject_Z (Z.of_nat k) + (7 # 10))%Q;
     train_emotion_model.synth_noise :=
       fun i _ => (inject_Z (Z.of_nat i) / 100 - (1 # 4))%Q |}.

(** A process with a saved model; its prediction has two equal maxima. *)
Definition predicting_environment : ml_model.environment unit nat :=
  {| ml_model.K := example_kernels;
     ml_model.load_keras_model := fun _ => py.Ok tt;
     ml_model.predict :=
       fun _ _ => py.Ok [[1 # 10; 6 # 10; 1 # 10; 6 # 10; 1 # 10]%Q];
     ml_model.path_exists := fun _ => py.Ok true;
     ml_model.json_load := fun _ => py.Raise (py.LibraryError "no such file");
     ml_model.sibling := fun _ name => name;
     ml_model.next_raw := fun n : nat => (n, S n) |}.

(** * Properties *)

(** ** Class labels and indices *)

Lemma EMOTION_TO_IDX_unfold :
  train.EMOTION_TO_IDX =
  <["neutral" := 4]> (<["surprised" := 3]> (<["angry" := 2]>
    (<["sad" := 1]> (<["happy" := 0]> ∅))))%string.
Proof. reflexivity. Qed.

Lemma IDX_TO_EMOTION_unfold :
  train.IDX_TO_EMOTION =
  <[0 := "happy"]> (<[1 := "sad"]> (<[2 := "angry"]>
    (<[3 := "surprised"]> (<[4 := "neutral"]> ∅))))%string.
Proof. vm_compute. reflexivity. Qed.

(** The index-to-label dict agrees with positions in the class list. *)
Lemma IDX_TO_EMOTION_lookup (i : nat) :
  train.IDX_TO_EMOTION !! i = train.EMOTION_CLASSES !! i.
Proof.
  do 5 (destruct i as [|i]; [vm_compute; reflexivity|]).
  rewrite IDX_TO_EMOTION_unfold.
  repeat (rewrite lookup_insert_ne by lia). rewrite lookup_empty. reflexivity.
Qed.

(** The label-to-index dict is the inverse of positions in the class list. *)
Lemma EMOTION_TO_IDX_Some (l : string) (i : nat) :
  train.EMOTION_TO_IDX !! l = Some i <-> train.EMOTION_CLASSES !! i = Some l.
Proof.
  rewrite EMOTION_TO_IDX_unfold. unfold train.EMOTION_CLASSES.
  repeat setoid_rewrite lookup_insert_Some. rewrite lookup_empty.
  split.
  - intros H. repeat (destruct H as [[<- <-]|[_ H]]; [reflexivity|]). discriminate.
  - intros H.
    do 5 (destruct i as [|i]; [simpl in H; injection H as <-; naive_solver|]).
    discriminate.
Qed.

Lemma EMOTION_TO_IDX_None (l : string) :
  l ∉ train.EMOTION_CLASSES -> train.EMOTION_TO_IDX !! l = None.
Proof.
  intros Hl. destruct (train.EMOTION_TO_IDX !! l) as [i|] eqn:E; [|reflexivity].
  apply EMOTION_TO_IDX_Some in E. exfalso. apply Hl.
  apply list_elem_of_lookup. eauto.
Qed.

(** The dataset object carries the training script's class list and dict. *)
Lemma dataset_init_classes read_csv csv dir nm ts sr aug ds out :
  dataset.__init__ read_csv csv dir nm ts sr aug = py.Ok (ds, out) ->
  dataset.emotion_classes ds = train.EMOTION_CLASSES /\
  dataset.emotion_to_idx ds = train.EMOTION_TO_IDX /\
  dataset.use_augmentation ds = aug /\
  dataset.n_mels ds = nm /\ dataset.time_steps ds = ts /\
  dataset.sample_rate ds = sr /\
  read_csv csv = py.Ok (dataset.samples ds).
Proof.
  unfold dataset.__init__, mbind, result_bind, py.bind.
  destruct (read_csv csv) as [rows|e]; [|discriminate].
  intros H. injection H as <- _. simpl. repeat split; reflexivity.
Qed.

(** C5. Each of the five labels maps to an index below 5 from which the
    index-to-label dict gives the label back; each index below 5 maps to a
    label from which the label-to-index dict gives the index back; the dict
    holds nothing else; the dataset object and the serving classifier use
    the same ordered list, and the classifier's positional lookup agrees
    with the training script's index-to-label dict. *)
Theorem label_index_bijection :
  (forall l : string, l ∈ train.EMOTION_CLASSES ->
     exists i : nat, train.EMOTION_TO_IDX !! l = Some i /\ i < 5 /\
                     train.IDX_TO_EMOTION !! i = Some l) /\
  (forall i : nat, i < 5 ->
     exists l : string, train.IDX_TO_EMOTION !! i = Some l /\
                        l ∈ train.EMOTION_CLASSES /\
                        train.EMOTION_TO_IDX !! l = Some i) /\
  (forall (l : string) (i : nat), train.EMOTION_TO_IDX !! l = Some i ->
     l ∈ train.EMOTION_CLASSES /\ i < 5) /\
  ml_model.EMOTIONS = train.EMOTION_CLASSES /\
  (forall i : nat, ml_model.EMOTIONS !! i = train.IDX_TO_EMOTION !! i) /\
  (forall read_csv csv dir nm ts sr aug ds out,
     dataset.__init__ read_csv csv dir nm ts sr aug = py.Ok (ds, out) ->
     dataset.emotion_classes ds = train.EMOTION_CLASSES /\
     dataset.emotion_to_idx ds = train.EMOTION_TO_IDX).
Proof.
  assert (Hlen : forall (l : string) (i : nat),
             train.EMOTION_CLASSES !! i = Some l -> i < 5).
  { intros l i H. apply lookup_lt_Some in H. exact H. }
  repeat split.
  - intros l Hl. apply list_elem_of_lookup in Hl as [i Hi].
    exists i. rewrite IDX_TO_EMOTION_lookup, EMOTION_TO_IDX_Some. eauto.
  - intros i Hi.
    destruct (train.EMOTION_CLASSES !! i) as [l|] eqn:E.
    + exists l. rewrite IDX_TO_EMOTION_lookup, EMOTION_TO_IDX_Some.
      repeat split; try assumption. apply list_elem_of_lookup. eauto.
    + apply lookup_ge_None in E. simpl in E. lia.
  - apply EMOTION_TO_IDX_Some in H. apply list_elem_of_lookup. eauto.
  - apply EMOTION_TO_IDX_Some in H. eauto.
  - intros i. rewrite IDX_TO_EMOTION_lookup. reflexivity.
  - eapply dataset_init_classes; eassumption.
  - eapply dataset_init_classes; eassumption.
Qed.

Lemma label_index_bijection_witness :
  exists i : nat, train.EMOTION_TO_IDX !! "angry"%string = Some i /\ i < 5 /\
                  train.IDX_TO_EMOTION !! i = Some "angry"%string.
Proof.
  apply (proj1 label_index_bijection "angry"%string).
  unfold train.EMOTION_CLASSES. set_solver.
Defined.

(** ** Early stopping *)

(** C1, as stated, fails: on validation accuracies 0.5, 0.5, 0.4, 0.3 with
    patience 2 the loop does not run a fourth epoch; it breaks in the third. *)
Lemma early_stopping_example_not_four_epochs :
  train.epochs_run
    (train.training_loop example_args (train.metrics_of_val_accs example_val_accs)) <> 4
  /\ train.epochs_run
    (train.training_loop example_args (train.metrics_of_val_accs example_val_accs)) = 3.
Proof. split; [discriminate | reflexivity]. Qed.

(** C1, amended. With patience 2 and at least four epochs allowed, a run
    whose validation accuracies start 0.5, 0.5, 0.4 (then 0.3) halts by
    early stopping exactly after the third epoch: the tie of epoch 2 and the
    drop of epoch 3 are the two non-improvements; the best accuracy is 0.5
    and the checkpoint is that of the first epoch. *)
Theorem early_stopping_example_halts_after_third_epoch :
  forall (a : train.args) (run_epoch : nat -> train.epoch_metrics),
    train.early_stopping_patience a = 2%Z ->
    4 <= train.epochs a ->
    map (fun epoch => train.val_acc (run_epoch epoch)) [0; 1; 2; 3]
      = [1 # 2; 1 # 2; 2 # 5; 3 # 10] ->
    let r := train.training_loop a run_epoch in
    train.epochs_run r = 3 /\ train.early_stopped r = true /\
    train.patience_counter (train.final r) = 2%Z /\
    train.best_val_acc (train.final r) = 1 # 2 /\
    train.ck_epoch <$> train.best_model_pth (train.final r) = Some 0.
Proof.
  intros a run_epoch Hp He Hv. injection Hv as H0 H1 H2 H3.
  unfold train.training_loop.
  destruct (train.epochs a) as [|[|[|n]]]; try lia.
  cbn [train.for_epochs]. unfold train.epoch_body. cbn zeta.
  rewrite H0. cbn. rewrite H1. cbn. rewrite H2, Hp. cbn.
  repeat split; reflexivity.
Qed.

Lemma early_stopping_example_halts_after_third_epoch_witness :
  let r := train.training_loop example_args
             (train.metrics_of_val_accs example_val_accs) in
  train.epochs_run r = 3 /\ train.early_stopped r = true /\
  train.patience_counter (train.final r) = 2%Z /\
  train.best_val_acc (train.final r) = 1 # 2 /\
  train.ck_epoch <$> train.best_model_pth (train.final r) = Some 0.
Proof.
  apply (early_stopping_example_halts_after_third_epoch example_args
           (train.metrics_of_val_accs example_val_accs)).
  - reflexivity.
  - simpl. lia.
  - reflexivity.
Defined.

(** ** Dataset construction and labels *)

(** C3, as stated, fails: a manifest with a label outside the five classes
    is accepted by the constructor, which only counts the known classes. *)
Lemma unknown_label_accepted_at_construction :
  let rows := [ {| dataset.path := "clip.wav"; dataset.label := "bored" |} ] in
  (exists s, s ∈ rows /\ dataset.label s ∉ train.EMOTION_CLASSES) /\
  ~ py.raises (dataset.__init__ (fun _ => py.Ok rows)
                 "labels.csv" "data" 64 100 16 false) /\
  py.returns (dataset.__init__ (fun _ => py.Ok rows)
                "labels.csv" "data" 64 100 16 false).
Proof.
  split; [|split].
  - eexists. split; [apply list_elem_of_here|].
    unfold train.EMOTION_CLASSES. simpl. intros H.
    repeat (apply elem_of_cons in H as [H|H]; [discriminate H|]).
    inversion H.
  - simpl. tauto.
  - simpl. exact I.
Qed.

(** C3, amended. Whenever the manifest can be read, constructing the dataset
    succeeds, also with labels outside the five classes; the unknown label
    surfaces when that sample is fetched, as a [KeyError] on the label. *)
Theorem unknown_label_surfaces_at_fetch :
  forall (K : librosa.kernels) read_csv path_join csv dir nm ts sr aug rows,
    read_csv csv = py.Ok rows ->
    exists ds out,
      dataset.__init__ read_csv csv dir nm ts sr aug = py.Ok (ds, out) /\
      dataset.samples ds = rows /\
      forall (idx : nat) (s : dataset.sample) (d : dataset.draws),
        rows !! idx = Some s ->
        dataset.label s ∉ train.EMOTION_CLASSES ->
        dataset.__getitem__ K path_join ds (Z.of_nat idx) d
          = py.Raise (py.KeyError (dataset.label s)).
Proof.
  intros K read_csv path_join csv dir nm ts sr aug rows Hread.
  unfold dataset.__init__, mbind, result_bind, py.bind. rewrite Hread.
  eexists. eexists. split; [reflexivity|]. split; [reflexivity|].
  intros idx s d Hs Hl.
  unfold dataset.__getitem__, mbind, result_bind, py.bind, py.getitem.
  cbn [dataset.samples dataset.emotion_to_idx].
  pose proof (lookup_lt_Some _ _ _ Hs) as Hlt.
  replace (Z.of_nat idx <? 0)%Z with false by (symmetry; apply Z.ltb_ge; lia).
  replace (0 <=? Z.of_nat idx)%Z with true by (symmetry; apply Z.leb_le; lia).
  replace (Z.of_nat idx <? Z.of_nat (length rows))%Z with true
    by (symmetry; apply Z.ltb_lt; lia).
  cbn [andb]. rewrite Nat2Z.id, Hs.
  unfold py.dict_getitem.
  change (py.dict_of_pairs _) with train.EMOTION_TO_IDX.
  rewrite (EMOTION_TO_IDX_None _ Hl). reflexivity.
Qed.

Lemma unknown_label_surfaces_at_fetch_witness :
  let rows := [ {| dataset.path := "clip.wav"; dataset.label := "bored" |} ] in
  let K := {| librosa.load := fun _ _ _ => py.Ok [1 # 2];
              librosa.normalize := fun y => y;
              librosa.mel_power := fun _ _ _ _ _ _ _ => 1%Q;
              librosa.db_scale := fun _ x => x |} in
  exists ds out,
    dataset.__init__ (fun _ => py.Ok rows) "labels.csv" "data" 4 3 16 false
      = py.Ok (ds, out) /\
    dataset.samples ds = rows /\
    forall (idx : nat) (s : dataset.sample) (d : dataset.draws),
      rows !! idx = Some s ->
      dataset.label s ∉ train.EMOTION_CLASSES ->
      dataset.__getitem__ K String.append ds (Z.of_nat idx) d
        = py.Raise (py.KeyError (dataset.label s)).
Proof.
  intros rows K.
  apply (unknown_label_surfaces_at_fetch K (fun _ => py.Ok rows) String.append
           "labels.csv" "data" 4 3 16 false rows).
  reflexivity.
Defined.

(** ** Shapes of the feature tensors *)

Lemma has_shape_melspectrogram K y sr nm nfft hop band :
  np.has_shape nm (librosa.n_frames (length y) hop)
    (librosa.melspectrogram K y sr nm nfft hop band).
Proof.
  unfold np.has_shape, librosa.melspectrogram. split.
  - rewrite length_map, length_seq. reflexivity.
  - apply Forall_map, Forall_forall. intros i _. simpl.
    rewrite length_map, length_seq. reflexivity.
Qed.

Lemma has_shape_power_to_db K r c S :
  np.has_shape r c S -> np.has_shape r c (librosa.power_to_db K S).
Proof.
  unfold np.has_shape, librosa.power_to_db. intros [Hr Hc]. split.
  - rewrite length_map. exact Hr.
  - apply Forall_map. eapply Forall_impl; [exact Hc|].
    intros row Hrow. simpl. rewrite length_map. exact Hrow.
Qed.

Lemma shape1_of_shape r c row S :
  np.has_shape r c (row :: S) -> np.shape1 (row :: S) = c.
Proof. intros [_ Hc]. inversion Hc; subst. reflexivity. Qed.





(** ** Augmentation *)

Lemma Qplus_0_r_eq (x : Q) : (x + 0)%Q = x.
Proof. destruct x as [a b]. unfold Qplus. simpl. f_equal; lia. Qed.

Lemma Qmult_1_r_eq (x : Q) : (x * 1)%Q = x.
Proof. destruct x as [a b]. unfold Qmult. simpl. f_equal; lia. Qed.

Lemma imap_pointwise_id {A} (f : nat -> A -> A) (l : list A) :
  (forall i x, f i x = x) -> imap f l = l.
Proof.
  revert f. induction l as [|x l IH]; intros f Hf; [reflexivity|].
  rewrite imap_cons, Hf. f_equal. apply IH. intros i y. apply Hf.
Qed.

Lemma map_pointwise_id {A} (f : A -> A) (l : list A) :
  (forall x, f x = x) -> map f l = l.
Proof.
  intros Hf. induction l as [|x l IH]; [reflexivity|].
  simpl. rewrite Hf, IH. reflexivity.
Qed.

(** Row lengths survive any row-wise rewriting that keeps each row's length. *)
Lemma row_lengths_imap (f : nat -> list Q -> list Q) (a : np.ndarray2) :
  (forall i row, length (f i row) = length row) ->
  map length (imap f a) = map length a.
Proof.
  revert f. induction a as [|row a IH]; intros f Hf; [reflexivity|].
  rewrite imap_cons. simpl. rewrite Hf. f_equal. apply IH.
  intros i r. apply Hf.
Qed.

Lemma row_lengths_map (f : list Q -> list Q) (a : np.ndarray2) :
  (forall row, length (f row) = length row) ->
  map length (map f a) = map length a.
Proof.
  intros Hf. induction a as [|row a IH]; [reflexivity|].
  simpl. rewrite Hf, IH. reflexivity.
Qed.

Lemma has_shape_row_lengths r c (a b : np.ndarray2) :
  map length b = map length a -> np.has_shape r c a -> np.has_shape r c b.
Proof.
  intros Hl [Hr Hc]. split.
  - rewrite <- Hr, <- (length_map length b), Hl. apply length_map.
  - apply (proj1 (Forall_map length (fun n => n = c) b)). rewrite Hl.
    apply (proj2 (Forall_map length (fun n => n = c) a)). exact Hc.
Qed.

Lemma row_lengths_add_cells a b : map length (np.add_cells a b) = map length a.
Proof. apply row_lengths_imap. intros i row. apply length_imap. Qed.

Lemma row_lengths_scale a g : map length (np.scale a g) = map length a.
Proof. apply row_lengths_map. intros row. apply length_map. Qed.

Lemma row_lengths_zero_cols a s w : map length (np.zero_cols a s w) = map length a.
Proof. apply row_lengths_map. intros row. apply length_imap. Qed.

Lemma row_lengths_zero_rows a s h : map length (np.zero_rows a s h) = map length a.
Proof.
  apply row_lengths_imap. intros i row.
  destruct ((s <=? i) && (i <? s + h))%bool; [apply length_map | reflexivity].
Qed.

Lemma row_lengths_augment self d a :
  map length (dataset._augment self d a) = map length a.
Proof.
  unfold dataset._augment.
  destruct (negb (Qle_bool (dataset.freq_gate d) (1 # 2)));
    destruct (negb (Qle_bool (dataset.time_gate d) (1 # 2)));
    repeat first [ rewrite row_lengths_zero_rows
                 | rewrite row_lengths_zero_cols
                 | rewrite row_lengths_scale
                 | rewrite row_lengths_add_cells ];
    reflexivity.
Qed.

Lemma augment_neutral self d a :
  neutral_draws d -> dataset._augment self d a = a.
Proof.
  intros (Hn & Hg & Ht & Hf). unfold dataset._augment.
  apply Qle_bool_iff in Ht. apply Qle_bool_iff in Hf.
  rewrite Ht, Hf. simpl. rewrite Hg.
  unfold np.scale, np.add_cells.
  rewrite (imap_pointwise_id _ a).
  - apply map_pointwise_id. intros row.
    apply map_pointwise_id. apply Qmult_1_r_eq.
  - intros i row. apply imap_pointwise_id. intros j x.
    rewrite Hn. apply Qplus_0_r_eq.
Qed.

(** C7. For every spectrogram and every outcome of the random draws the
    augmented array has the shape of its input; under the neutral draws
    (zero noise, gain 1, no mask taken) the augmented array is the input. *)
Theorem augment_shape_and_neutral_identity :
  forall (self : dataset.AudioEmotionDataset) (d : dataset.draws)
         (spectrogram : np.ndarray2) (r c : nat),
    np.has_shape r c spectrogram ->
    np.has_shape r c (dataset._augment self d spectrogram) /\
    (neutral_draws d -> dataset._augment self d spectrogram = spectrogram).
Proof.
  intros self d a r c Ha. split.
  - eapply has_shape_row_lengths; [apply row_lengths_augment | exact Ha].
  - apply augment_neutral.
Qed.

Lemma augment_shape_and_neutral_identity_witness :
  let a : np.ndarray2 := [[1 # 2; -(3); 0]; [7; 1 # 3; 2]]%Q in
  (np.has_shape 2 3 (dataset._augment example_dataset example_draws a) /\
   (neutral_draws example_draws ->
    dataset._augment example_dataset example_draws a = a)) /\
  (np.has_shape 2 3 (dataset._augment example_dataset example_neutral_draws a) /\
   (neutral_draws example_neutral_draws ->
    dataset._augment example_dataset example_neutral_draws a = a)).
Proof.
  intros a. split.
  - apply (augment_shape_and_neutral_identity example_dataset example_draws a 2 3).
    split; [reflexivity | repeat constructor].
  - apply (augment_shape_and_neutral_identity
             example_dataset example_neutral_draws a 2 3).
    split; [reflexivity | repeat constructor].
Defined.

(** ** Decode failures *)

Lemma py_getitem_nat {A} (l : list A) (i : nat) (x : A) :
  l !! i = Some x -> py.getitem l (Z.of_nat i) = py.Ok x.
Proof.
  intros Hx. pose proof (lookup_lt_Some _ _ _ Hx) as Hlt.
  unfold py.getitem.
  replace (Z.of_nat i <? 0)%Z with false by (symmetry; apply Z.ltb_ge; lia).
  replace (0 <=? Z.of_nat i)%Z with true by (symmetry; apply Z.leb_le; lia).
  replace (Z.of_nat i <? Z.of_nat (length l))%Z with true
    by (symmetry; apply Z.ltb_lt; lia).
  cbn [andb]. rewrite Nat2Z.id, Hx. reflexivity.
Qed.





(** ** The train/validation split *)

Lemma main_datasets_store read_csv randperm a h train_dataset val_dataset :
  train.main_datasets read_csv randperm a = py.Ok (h, train_dataset, val_dataset) ->
  exists ds : dataset.AudioEmotionDataset,
    h = {[ train.full_dataset := dataset.set_use_augmentation false ds ]} /\
    torch.dataset train_dataset = train.full_dataset /\
    torch.dataset val_dataset = train.full_dataset /\
    dataset.use_augmentation ds = train.use_augmentation a.
Proof.
  unfold train.main_datasets.
  destruct (dataset.__init__ read_csv (train.csv_path a) (train.data_dir a)
              (train.n_mels a) (train.time_steps a) (train.sample_rate a)
              (train.use_augmentation a)) as [[ds out]|e] eqn:E; [|discriminate].
  apply dataset_init_classes in E as (_ & _ & Haug & _).
  cbn [mbind result_bind py.bind torch.random_split torch.dataset].
  intros H. injection H as <- <- <-.
  exists ds. rewrite alter_singleton. repeat split; try reflexivity. exact Haug.
Qed.

(** With the flag off, a fetch does not look at the random draws. *)
Lemma getitem_without_augmentation K path_join ds idx d d' :
  dataset.use_augmentation ds = false ->
  dataset.__getitem__ K path_join ds idx d = dataset.__getitem__ K path_join ds idx d'.
Proof.
  intros Hoff. unfold dataset.__getitem__. rewrite Hoff. reflexivity.
Qed.

Lemma subset_getitem_without_augmentation K path_join ds sub idx d d' :
  torch.dataset sub = train.full_dataset ->
  torch.Subset_getitem K path_join
    {[ train.full_dataset := dataset.set_use_augmentation false ds ]} sub idx d
  = torch.Subset_getitem K path_join
    {[ train.full_dataset := dataset.set_use_augmentation false ds ]} sub idx d'.
Proof.
  intros Hsub. unfold torch.Subset_getitem, mbind, result_bind, py.bind.
  destruct (py.getitem (torch.indices sub) idx) as [i|e]; [|reflexivity].
  rewrite Hsub, lookup_singleton_eq.
  apply getitem_without_augmentation. reflexivity.
Qed.

(** C2, on the code. Even when augmentation is requested, both subsets refer
    to the one dataset object whose flag the script clears "for validation":
    after the split the flag read through the training subset is off, and a
    fetch through the training subset (as through the validation subset)
    returns the same value whatever the random draws are, namely the
    unperturbed features. *)
Theorem training_split_fetch_ignores_draws :
  forall (K : librosa.kernels) read_csv path_join randperm (a : train.args)
         (h : torch.store) (train_dataset val_dataset : torch.Subset),
    train.use_augmentation a = true ->
    train.main_datasets read_csv randperm a
      = py.Ok (h, train_dataset, val_dataset) ->
    torch.dataset train_dataset = torch.dataset val_dataset /\
    (exists ds, h !! torch.dataset train_dataset = Some ds /\
                dataset.use_augmentation ds = false) /\
    (forall idx d d',
       torch.Subset_getitem K path_join h train_dataset idx d
       = torch.Subset_getitem K path_join h train_dataset idx d') /\
    (forall idx d d',
       torch.Subset_getitem K path_join h val_dataset idx d
       = torch.Subset_getitem K path_join h val_dataset idx d').
Proof.
  intros K read_csv path_join randperm a h tr va _ Hmain.
  apply main_datasets_store in Hmain as (ds & -> & Htr & Hva & _).
  split; [congruence|]. split; [|split].
  - rewrite Htr, lookup_singleton_eq. eexists. split; reflexivity.
  - intros idx d d'. apply subset_getitem_without_augmentation. exact Htr.
  - intros idx d d'. apply subset_getitem_without_augmentation. exact Hva.
Qed.

Lemma training_split_fetch_ignores_draws_witness :
  train.use_augmentation augmenting_args = true /\
  exists h train_dataset val_dataset,
    train.main_datasets (fun _ => py.Ok example_manifest) (fun n => rev (seq 0 n))
      augmenting_args = py.Ok (h, train_dataset, val_dataset) /\
    torch.Subset_getitem example_kernels example_path_join h train_dataset 0
      example_draws
    = torch.Subset_getitem example_kernels example_path_join h train_dataset 0
      example_neutral_draws.
Proof.
  split; [reflexivity|].
  eexists. eexists. eexists. split; [reflexivity|].
  destruct (training_split_fetch_ignores_draws example_kernels
              (fun _ => py.Ok example_manifest) example_path_join
              (fun n => rev (seq 0 n)) augmenting_args _ _ _ eq_refl eq_refl)
    as (_ & _ & Htrain & _).
  apply Htrain.
Defined.

(** On the dataset object itself, with the flag on, the draws do matter. *)
Lemma augmentation_perturbs_when_enabled :
  dataset.__getitem__ example_kernels example_path_join example_dataset 0 example_draws
  <> dataset.__getitem__ example_kernels example_path_join example_dataset 0
       example_neutral_draws.
Proof. vm_compute. discriminate. Qed.

(** ** The serving classifier *)

Section ServingProperties.

Context {keras_model rng : Type}.
Variable E : ml_model.environment keras_model rng.

Lemma random_random_unit_interval (raw : nat) :
  (0 <= (Z.of_nat raw mod 2 ^ 53 # 2 ^ 53) <= 1)%Q.
Proof.
  assert (H : (0 <= Z.of_nat raw mod 2 ^ 53 < 2 ^ 53)%Z)
    by (apply Z.mod_pos_bound; lia).
  unfold Qle. cbn [Qnum Qden].
  change (Z.pos (2 ^ 53)) with (2 ^ 53)%Z. lia.
Qed.

(** The stub returns a listed label and a confidence between 0.6 and 0.9,
    and touches nothing but the generator. *)
Lemma stub_classify_spec (s : @ml_model.process keras_model rng) :
  exists emotion confidence s',
    ml_model._stub_classify E s = (py.Ok (emotion, confidence), s') /\
    emotion ∈ ml_model.EMOTIONS /\
    (6 # 10 <= confidence <= 9 # 10)%Q /\
    ml_model.stdout s' = ml_model.stdout s /\
    ml_model._classifier s' = ml_model._classifier s.
Proof.
  unfold ml_model._stub_classify, ml_model.random_choice, ml_model.random_random,
    ml_model.draw, mbind, ml_model.M_bind, mret, ml_model.M_ret, ml_model.lift.
  destruct (ml_model.next_raw E (ml_model.random_state s)) as [raw g] eqn:E1.
  cbn [ml_model.random_state ml_model.stdout ml_model._classifier].
  assert (Hlt : raw mod length ml_model.EMOTIONS < length ml_model.EMOTIONS)
    by (apply Nat.mod_upper_bound; discriminate).
  destruct (lookup_lt_is_Some_2 _ _ Hlt) as [emotion Hemotion].
  rewrite Hemotion.
  cbn [ml_model.random_state ml_model.stdout ml_model._classifier].
  destruct (ml_model.next_raw E g) as [raw' g'] eqn:E2.
  eexists. eexists. eexists. split; [reflexivity|].
  cbn [ml_model.stdout ml_model._classifier].
  split; [apply list_elem_of_lookup; eauto|].
  split; [|split; reflexivity].
  pose proof (random_random_unit_interval raw') as [Hlo Hhi].
  split; lra.
Qed.

Lemma classify_without_model (self : ml_model.EmotionClassifier)
    (audio_path : string) (s : @ml_model.process keras_model rng) :
  ml_model.model self = None ->
  ml_model.classify E self audio_path s = ml_model._stub_classify E s.
Proof. intros H. unfold ml_model.classify. rewrite H. reflexivity. Qed.

(** Without a model file the constructor leaves [self.model] unset. *)
Lemma init_without_model_file (s : @ml_model.process keras_model rng) :
  ml_model.path_exists E ml_model.default_model_path = py.Ok false ->
  exists self s',
    ml_model.__init__ E None s = (py.Ok self, s') /\
    ml_model.model self = None.
Proof.
  intros Habsent.
  unfold ml_model.__init__, mbind, ml_model.M_bind, ml_model.lift.
  rewrite Habsent. eexists. eexists. split; reflexivity.
Qed.

(** C8. With no model loaded, every call in any sequence of calls of
    [classify] returns normally, with one of the five labels and a
    confidence in [0.6, 0.9]. *)
Theorem stub_classifier_outputs_in_range :
  forall (self : ml_model.EmotionClassifier) (audio_paths : list string)
         (s : @ml_model.process keras_model rng),
    ml_model.model self = None ->
    exists results s',
      ml_model.classify_each E self audio_paths s = (py.Ok results, s') /\
      length results = length audio_paths /\
      Forall (fun r : string * Q =>
                r.1 ∈ ml_model.EMOTIONS /\ (6 # 10 <= r.2 <= 9 # 10)%Q) results.
Proof.
  intros self audio_paths s Hnone. revert s.
  induction audio_paths as [|p ps IH]; intros s.
  - exists [], s. repeat split. constructor.
  - cbn [ml_model.classify_each]. unfold mbind, ml_model.M_bind.
    rewrite (classify_without_model self p s Hnone).
    destruct (stub_classify_spec s) as (emotion & confidence & s1 & -> & He & Hc & _).
    destruct (IH s1) as (results & s2 & -> & Hlen & Hall).
    exists ((emotion, confidence) :: results), s2.
    split; [reflexivity|]. split; [simpl; lia|].
    constructor; [split; assumption | exact Hall].
Qed.


End ServingProperties.

Lemma stub_classifier_outputs_in_range_witness :
  exists results s',
    ml_model.classify_each example_environment stub_classifier
      ["a.wav"; "b.wav"; "c.wav"]%string example_process = (py.Ok results, s') /\
    length results = 3 /\
    Forall (fun r : string * Q =>
              r.1 ∈ ml_model.EMOTIONS /\ (6 # 10 <= r.2 <= 9 # 10)%Q) results.
Proof.
  apply (stub_classifier_outputs_in_range example_environment stub_classifier
           ["a.wav"; "b.wav"; "c.wav"]%string example_process).
  reflexivity.
Defined.

(** ** Min-max normalisation on the serving path *)

Lemma Qminimum_cases x y :
  (np.Qminimum x y = x /\ (x <= y)%Q) \/ (np.Qminimum x y = y /\ (y <= x)%Q).
Proof.
  unfold np.Qminimum. destruct (Qle_bool x y) eqn:E.
  - left. split; [reflexivity|]. apply Qle_bool_iff. exact E.
  - right. split; [reflexivity|].
    destruct (Qlt_le_dec y x) as [H|H]; [apply Qlt_le_weak; exact H|].
    apply Qle_bool_iff in H. congruence.
Qed.

Lemma Qmaximum_cases x y :
  (np.Qmaximum x y = y /\ (x <= y)%Q) \/ (np.Qmaximum x y = x /\ (y <= x)%Q).
Proof.
  unfold np.Qmaximum. destruct (Qle_bool x y) eqn:E.
  - left. split; [reflexivity|]. apply Qle_bool_iff. exact E.
  - right. split; [reflexivity|].
    destruct (Qlt_le_dec y x) as [H|H]; [apply Qlt_le_weak; exact H|].
    apply Qle_bool_iff in H. congruence.
Qed.

(** The running minimum is below its seed and below every later element,
    and is one of them. *)
Lemma fold_Qminimum_spec (xs : list Q) (x0 : Q) :
  In (fold_left np.Qminimum xs x0) (x0 :: xs) /\
  forall y, In y (x0 :: xs) -> (fold_left np.Qminimum xs x0 <= y)%Q.
Proof.
  revert x0. induction xs as [|x xs IH]; intros x0.
  - simpl. split; [left; reflexivity|].
    intros y [<-|[]]. apply Qle_refl.
  - cbn [fold_left]. destruct (IH (np.Qminimum x0 x)) as [Hin Hle]. split.
    + destruct Hin as [Hin|Hin]; [|right; right; exact Hin].
      rewrite <- Hin.
      destruct (Qminimum_cases x0 x) as [[-> _]|[-> _]];
        [left | right; left]; reflexivity.
    + intros y Hy.
      assert (Hm : (fold_left np.Qminimum xs (np.Qminimum x0 x) <= np.Qminimum x0 x)%Q)
        by (apply Hle; left; reflexivity).
      destruct Hy as [<-|[<-|Hy]].
      * eapply Qle_trans; [exact Hm|].
        destruct (Qminimum_cases x0 x) as [[-> H]|[-> H]];
          [apply Qle_refl | exact H].
      * eapply Qle_trans; [exact Hm|].
        destruct (Qminimum_cases x0 x) as [[-> H]|[-> H]];
          [exact H | apply Qle_refl].
      * apply Hle. right. exact Hy.
Qed.

Lemma fold_Qmaximum_spec (xs : list Q) (x0 : Q) :
  In (fold_left np.Qmaximum xs x0) (x0 :: xs) /\
  forall y, In y (x0 :: xs) -> (y <= fold_left np.Qmaximum xs x0)%Q.
Proof.
  revert x0. induction xs as [|x xs IH]; intros x0.
  - simpl. split; [left; reflexivity|].
    intros y [<-|[]]. apply Qle_refl.
  - cbn [fold_left]. destruct (IH (np.Qmaximum x0 x)) as [Hin Hle]. split.
    + destruct Hin as [Hin|Hin]; [|right; right; exact Hin].
      rewrite <- Hin.
      destruct (Qmaximum_cases x0 x) as [[-> _]|[-> _]];
        [right; left | left]; reflexivity.
    + intros y Hy.
      assert (Hm : (np.Qmaximum x0 x <= fold_left np.Qmaximum xs (np.Qmaximum x0 x))%Q)
        by (apply Hle; left; reflexivity).
      destruct Hy as [<-|[<-|Hy]].
      * eapply Qle_trans; [|exact Hm].
        destruct (Qmaximum_cases x0 x) as [[-> H]|[-> H]];
          [exact H | apply Qle_refl].
      * eapply Qle_trans; [|exact Hm].
        destruct (Qmaximum_cases x0 x) as [[-> H]|[-> H]];
          [apply Qle_refl | exact H].
      * apply Hle. right. exact Hy.
Qed.

Lemma amin_spec (a : np.ndarray2) (lo : Q) :
  np.amin a = Some lo ->
  In lo (np.cells a) /\ forall y, In y (np.cells a) -> (lo <= y)%Q.
Proof.
  unfold np.amin. destruct (np.cells a) as [|x xs]; [discriminate|].
  intros H. injection H as <-. apply fold_Qminimum_spec.
Qed.

Lemma amax_spec (a : np.ndarray2) (hi : Q) :
  np.amax a = Some hi ->
  In hi (np.cells a) /\ forall y, In y (np.cells a) -> (y <= hi)%Q.
Proof.
  unfold np.amax. destruct (np.cells a) as [|x xs]; [discriminate|].
  intros H. injection H as <-. apply fold_Qmaximum_spec.
Qed.

(** One normalised cell. *)
Lemma min_max_cell (lo hi y : Q) :
  (lo <= y)%Q -> (y <= hi)%Q ->
  (0 <= (y - lo) / (hi - lo + (1 # 100000000)) <= 1)%Q.
Proof.
  intros Hlo Hhi.
  assert (Hden : (0 < hi - lo + (1 # 100000000))%Q).
  { assert (H : (0 < 1 # 100000000)%Q) by reflexivity. lra. }
  split.
  - apply Qle_shift_div_l; [exact Hden | lra].
  - apply Qle_shift_div_r; [exact Hden | lra].
Qed.

(** Cells of the normalised array come from cells of the input. *)
Lemma min_max_cells (m out : np.ndarray2) :
  ml_model.min_max m = py.Ok out ->
  exists lo hi,
    np.amin m = Some lo /\ np.amax m = Some hi /\
    forall x, In x (np.cells out) ->
      exists y, In y (np.cells m) /\
                x = ((y - lo) / (hi - lo + (1 # 100000000)))%Q.
Proof.
  unfold ml_model.min_max.
  destruct (np.amin m) as [lo|]; [|discriminate].
  destruct (np.amax m) as [hi|]; [|discriminate].
  intros H. injection H as <-. exists lo, hi. repeat split.
  intros x Hx. unfold np.cells in *.
  apply in_concat in Hx as (row & Hrow & Hx).
  apply in_map_iff in Hrow as (row0 & <- & Hrow0).
  apply in_map_iff in Hx as (y & <- & Hy).
  exists y. split; [|reflexivity].
  apply in_concat. exists row0. split; assumption.
Qed.

Lemma min_max_range (m out : np.ndarray2) :
  ml_model.min_max m = py.Ok out ->
  forall x, In x (np.cells out) -> (0 <= x <= 1)%Q.
Proof.
  intros H x Hx.
  destruct (min_max_cells m out H) as (lo & hi & Hlo & Hhi & Hcells).
  destruct (Hcells x Hx) as (y & Hy & ->).
  apply min_max_cell.
  - apply (amin_spec m lo Hlo). exact Hy.
  - apply (amax_spec m hi Hhi). exact Hy.
Qed.

Lemma min_max_constant (m out : np.ndarray2) :
  ml_model.min_max m = py.Ok out ->
  (forall x y, In x (np.cells m) -> In y (np.cells m) -> (x == y)%Q) ->
  forall x, In x (np.cells out) -> (x == 0)%Q.
Proof.
  intros H Hconst x Hx.
  destruct (min_max_cells m out H) as (lo & hi & Hlo & Hhi & Hcells).
  destruct (Hcells x Hx) as (y & Hy & ->).
  assert (Hyl : (y == lo)%Q) by (apply Hconst; [exact Hy | apply (amin_spec m lo Hlo)]).
  assert (Hz : (lo - lo == 0)%Q) by ring.
  rewrite Hyl. unfold Qdiv. rewrite Hz. apply Qmult_0_l.
Qed.

(** The columns that exist before fitting are returned as they are. *)
Lemma fit_time_axis_keeps_columns ts r c S :
  np.has_shape r c S ->
  np.take_cols (dataset.fit_time_axis ts S) (Nat.min ts c)
  = np.take_cols S (Nat.min ts c).
Proof.
  intros HS. destruct S as [|row S].
  - unfold dataset.fit_time_axis. simpl. destruct (0 <? ts); reflexivity.
  - pose proof (shape1_of_shape _ _ _ _ HS) as Hw.
    destruct HS as [_ Hc]. rewrite Forall_forall in Hc.
    unfold dataset.fit_time_axis. rewrite Hw.
    destruct (c <? ts) eqn:E1; [|destruct (ts <? c) eqn:E2]; [| |reflexivity].
    + apply Nat.ltb_lt in E1. unfold np.take_cols, np.pad_cols.
      rewrite map_map. apply map_ext_in. intros x Hx.
      apply list_elem_of_In, Hc in Hx.
      rewrite firstn_app, Hx.
      replace (Nat.min ts c - c) with 0 by lia.
      simpl. apply app_nil_r.
    + apply Nat.ltb_lt in E2. unfold np.take_cols.
      rewrite map_map. apply map_ext. intros x.
      rewrite firstn_firstn. f_equal. lia.
Qed.

(** A spectrogram with at least one mel band has cells. *)
Lemma power_to_db_cells_nonempty T y sr nm nfft hop band :
  0 < nm ->
  np.cells (librosa.power_to_db T (librosa.melspectrogram T y sr nm nfft hop band))
  <> [].
Proof.
  intros Hnm. destruct nm as [|nm]; [lia|].
  unfold librosa.power_to_db, librosa.melspectrogram, librosa.n_frames, np.cells.
  cbn [seq map Nat.add concat app]. discriminate.
Qed.

Lemma min_max_returns (m : np.ndarray2) :
  np.cells m <> [] -> exists out, ml_model.min_max m = py.Ok out.
Proof.
  intros Hne. unfold ml_model.min_max, np.amin, np.amax.
  destruct (np.cells m) as [|x xs]; [contradiction|]. eauto.
Qed.

Section ServingFeatures.

Context {keras_model rng : Type}.
Variable E : ml_model.environment keras_model rng.

Lemma extract_features_some audio_path (s s' : @ml_model.process keras_model rng)
    (features : ml_model.ndarray4) :
  ml_model.extract_features E audio_path s = (py.Ok (Some features), s') ->
  ml_model.extract_features_body E audio_path = py.Ok features.
Proof.
  unfold ml_model.extract_features.
  destruct (ml_model.extract_features_body E audio_path) as [f|e].
  - intros H. injection H as <- _. reflexivity.
  - unfold mbind, ml_model.M_bind, ml_model.print, mret, ml_model.M_ret.
    intros H. discriminate H.
Qed.

(** The returned batch holds one feature map: the normalised spectrogram
    with a channel axis of length one. *)
Lemma extract_features_body_cells audio_path (features : ml_model.ndarray4) :
  ml_model.extract_features_body E audio_path = py.Ok features ->
  exists m out,
    ml_model.min_max m = py.Ok out /\
    features = [map (map (fun x => [x])) out].
Proof.
  unfold ml_model.extract_features_body, mbind, result_bind, py.bind.
  destruct (librosa.load _ _ _ _) as [y|e]; [|discriminate].
  destruct (ml_model.min_max _) as [out|e] eqn:Hmm; [|discriminate].
  intros H. injection H as <-. eauto.
Qed.

(** A file that decodes gets features, and nothing is printed. *)
Lemma extract_features_returns audio_path (y : np.ndarray1)
    (s : @ml_model.process keras_model rng) :
  librosa.load (ml_model.K E) audio_path ml_model.SAMPLE_RATE
    (Some ml_model.DURATION) = py.Ok y ->
  exists features,
    ml_model.extract_features E audio_path s = (py.Ok (Some features), s).
Proof.
  intros Hload.
  assert (Hbody : exists features,
             ml_model.extract_features_body E audio_path = py.Ok features).
  { unfold ml_model.extract_features_body, mbind, result_bind, py.bind.
    rewrite Hload.
    match goal with
    | |- context [ml_model.min_max ?m] =>
        destruct (min_max_returns m) as [out ->]
    end.
    - apply power_to_db_cells_nonempty. unfold ml_model.N_MELS. lia.
    - eauto. }
  destruct Hbody as [features Hbody]. exists features.
  unfold ml_model.extract_features. rewrite Hbody. reflexivity.
Qed.

(** C10. For every file that decodes, the serving extractor returns
    features, and whenever it returns features each of their entries lies
    in [0, 1]; on a constant spectrogram the normalised entries are all 0;
    the training extractor, in contrast, returns the dB values as
    [power_to_db] produced them, on all columns that exist before the time
    axis is fitted. *)
Theorem serving_features_in_unit_interval :
  (forall (audio_path : string) (y : np.ndarray1)
          (s : @ml_model.process keras_model rng),
     librosa.load (ml_model.K E) audio_path ml_model.SAMPLE_RATE
       (Some ml_model.DURATION) = py.Ok y ->
     exists features,
       ml_model.extract_features E audio_path s = (py.Ok (Some features), s) /\
       forall batch row cell x,
         In batch features -> In row batch -> In cell row -> In x cell ->
         (0 <= x <= 1)%Q) /\
  (forall (audio_path : string) (s s' : @ml_model.process keras_model rng)
          (features : ml_model.ndarray4),
     ml_model.extract_features E audio_path s = (py.Ok (Some features), s') ->
     forall batch row cell x,
       In batch features -> In row batch -> In cell row -> In x cell ->
       (0 <= x <= 1)%Q) /\
  (forall m out : np.ndarray2,
     ml_model.min_max m = py.Ok out ->
     (forall x y, In x (np.cells m) -> In y (np.cells m) -> (x == y)%Q) ->
     forall x, In x (np.cells out) -> (x == 0)%Q) /\
  (forall (T : librosa.kernels) (self : dataset.AudioEmotionDataset)
          (audio_path : string),
     let audio :=
       librosa.normalize T
         (dataset.prepare_audio self
            (librosa.load T audio_path (dataset.sample_rate self) None)) in
     let kept := Nat.min (dataset.time_steps self)
                         (librosa.n_frames (length audio) 512) in
     np.take_cols (dataset._load_and_preprocess T self audio_path) kept
     = np.take_cols
         (librosa.power_to_db T
            (librosa.melspectrogram T audio (dataset.sample_rate self)
               (dataset.n_mels self) 2048 512
               (Some (0, dataset.sample_rate self / 2))))
         kept).
Proof.
  assert (Hrange : forall (audio_path : string)
                          (s s' : @ml_model.process keras_model rng)
                          (features : ml_model.ndarray4),
             ml_model.extract_features E audio_path s = (py.Ok (Some features), s') ->
             forall batch row cell x,
               In batch features -> In row batch -> In cell row -> In x cell ->
               (0 <= x <= 1)%Q).
  { intros audio_path s s' features Hf batch row cell x Hb Hr Hc Hx.
    apply extract_features_some, extract_features_body_cells in Hf
      as (m & out & Hmm & ->).
    destruct Hb as [<-|[]].
    apply in_map_iff in Hr as (row0 & <- & Hrow0).
    apply in_map_iff in Hc as (x0 & <- & Hx0).
    destruct Hx as [<-|[]].
    apply (min_max_range m out Hmm).
    apply in_concat. exists row0. split; assumption. }
  split; [|split; [exact Hrange|split]].
  - intros audio_path y s Hload.
    destruct (extract_features_returns audio_path y s Hload) as [features Hf].
    exists features. split; [exact Hf|]. exact (Hrange _ _ _ _ Hf).
  - exact min_max_constant.
  - intros T self audio_path audio kept.
    unfold dataset._load_and_preprocess.
    apply (fit_time_axis_keeps_columns _ (dataset.n_mels self)).
    apply has_shape_power_to_db, has_shape_melspectrogram.
Qed.

End ServingFeatures.

Lemma serving_features_in_unit_interval_witness :
  exists features,
    ml_model.extract_features example_environment "clip.wav" example_process
      = (py.Ok (Some features), example_process) /\
    forall batch row cell x,
      In batch features -> In row batch -> In cell row -> In x cell ->
      (0 <= x <= 1)%Q.
Proof.
  apply (proj1 (serving_features_in_unit_interval example_environment)
           "clip.wav" [1 # 2; -(1 # 4); 1 # 8]%Q example_process).
  reflexivity.
Defined.

(** On the training path the same kernels give entries outside [0, 1]. *)
Lemma training_features_not_normalised :
  exists x,
    In x (np.cells (dataset._load_and_preprocess example_kernels example_dataset
                      "data/a.wav")) /\
    (x < 0)%Q.
Proof. exists (-(79))%Q. split; [vm_compute; left; reflexivity | reflexivity]. Qed.

(** * Further properties *)

(** ** The training loop in general *)

Section LoopProperties.

Variable a : train.args.
Variable run_epoch : nat -> train.epoch_metrics.

Lemma initial_state_invariant :
  loop_invariant a run_epoch 0 train.initial_state /\
  below_patience a train.initial_state.
Proof.
  unfold loop_invariant, below_patience. simpl.
  repeat split; try reflexivity; try (left; reflexivity).
  - apply Qle_refl.
  - intros e He. lia.
Qed.

(** One epoch keeps the invariant; a break leaves the counter at the
    threshold (at 1 when the threshold is below 1). *)
Lemma epoch_body_invariant (epoch : nat) (s s' : train.loop_state)
    (c : train.control) :
  loop_invariant a run_epoch epoch s ->
  below_patience a s ->
  train.epoch_body a run_epoch epoch s = (s', c) ->
  loop_invariant a run_epoch (S epoch) s' /\
  (c = train.Next -> below_patience a s') /\
  (c = train.Break ->
   train.patience_counter s' = Z.max 1 (train.early_stopping_patience a)).
Proof.
  intros (Hh & H0 & Hle & Hck) Hp.
  assert (Hnn : (0 <= train.patience_counter s)%Z).
  { destruct (train.best_model_pth s);
      [destruct Hck as (_ & _ & _ & _ & _ & -> & _) | destruct Hck as (_ & ->)];
      lia. }
  unfold train.epoch_body.
  destruct (Qle_bool (train.val_acc (run_epoch epoch)) (train.best_val_acc s))
    eqn:Hcmp; cbn [negb].
  - (* no improvement *)
    apply Qle_bool_iff in Hcmp. intros H. injection H as <- <-.
    split; [|split].
    + unfold loop_invariant. cbn [train.train_history train.best_val_acc
        train.best_model_pth train.patience_counter].
      split; [rewrite Hh, seq_S, map_app; reflexivity|].
      split; [exact H0|]. split.
      * intros e He. destruct (Nat.eq_dec e epoch) as [->|Hne];
          [exact Hcmp | apply Hle; lia].
      * destruct (train.best_model_pth s) as [ck|].
        -- destruct Hck as (Hv & Hlt & Hb & Hpos & Hfirst & Hc & Hn & Ht).
           repeat split; try assumption; try lia.
        -- destruct Hck as (Hb & Hc). split; [exact Hb | lia].
    + destruct (train.early_stopping_patience a <=? train.patience_counter s + 1)%Z
        eqn:E; [discriminate|].
      intros _. apply Z.leb_gt in E. right.
      cbn [train.patience_counter]. exact E.
    + destruct (train.early_stopping_patience a <=? train.patience_counter s + 1)%Z
        eqn:E; [|discriminate].
      intros _. apply Z.leb_le in E. cbn [train.patience_counter].
      unfold below_patience in Hp. lia.
  - (* strict improvement *)
    assert (Hgt : (train.best_val_acc s < train.val_acc (run_epoch epoch))%Q).
    { apply Qnot_le_lt. intros Hc. apply Qle_bool_iff in Hc. congruence. }
    intros H. injection H as <- <-.
    split; [|split; [intros _; left; reflexivity | discriminate]].
    unfold loop_invariant. cbn [train.train_history train.best_val_acc
      train.best_model_pth train.patience_counter train.ck_val_acc
      train.ck_epoch train.ck_n_mels train.ck_time_steps].
    split; [rewrite Hh, seq_S, map_app; reflexivity|].
    split; [apply Qlt_le_weak; eapply Qle_lt_trans; eassumption|]. split.
    + intros e He. destruct (Nat.eq_dec e epoch) as [->|Hne];
        [apply Qle_refl|].
      apply Qlt_le_weak. eapply Qle_lt_trans; [apply Hle; lia | exact Hgt].
    + repeat split; try reflexivity; try lia.
      * eapply Qle_lt_trans; eassumption.
      * intros e He. eapply Qle_lt_trans; [apply Hle; exact He | exact Hgt].
Qed.

(** The loop from any state that satisfies the invariant. *)
Lemma for_epochs_invariant (remaining epoch : nat) (s : train.loop_state) :
  loop_invariant a run_epoch epoch s ->
  below_patience a s ->
  let r := train.for_epochs a run_epoch remaining epoch s in
  loop_invariant a run_epoch (train.epochs_run r) (train.final r) /\
  epoch <= train.epochs_run r <= epoch + remaining /\
  (train.early_stopped r = false ->
   train.epochs_run r = epoch + remaining /\ below_patience a (train.final r)) /\
  (train.early_stopped r = true ->
   train.patience_counter (train.final r)
   = Z.max 1 (train.early_stopping_patience a)).
Proof.
  revert epoch s. induction remaining as [|remaining IH]; intros epoch s Hi Hp.
  - simpl. split; [exact Hi|]. split; [lia|].
    split; [intros _; split; [lia | exact Hp] | discriminate].
  - cbn [train.for_epochs].
    destruct (train.epoch_body a run_epoch epoch s) as [s' c] eqn:Hbody.
    destruct (epoch_body_invariant epoch s s' c Hi Hp Hbody) as (Hi' & Hn & Hb).
    destruct c.
    + destruct (IH (S epoch) s' Hi' (Hn eq_refl)) as (H1 & H2 & H3 & H4).
      cbv zeta. split; [exact H1|]. split; [lia|]. split; [|exact H4].
      intros H. destruct (H3 H) as [H5 H6]. split; [lia | exact H6].
    + cbv zeta. cbn [train.final train.epochs_run train.early_stopped].
      split; [exact Hi'|]. split; [lia|]. split; [discriminate|].
      intros _. apply Hb. reflexivity.
Qed.

Lemma training_loop_invariant :
  let r := train.training_loop a run_epoch in
  loop_invariant a run_epoch (train.epochs_run r) (train.final r) /\
  train.epochs_run r <= train.epochs a /\
  (train.early_stopped r = false -> train.epochs_run r = train.epochs a) /\
  (train.early_stopped r = true ->
   train.patience_counter (train.final r)
   = Z.max 1 (train.early_stopping_patience a)).
Proof.
  destruct initial_state_invariant as [Hi Hp].
  destruct (for_epochs_invariant (train.epochs a) 0 train.initial_state Hi Hp)
    as (H1 & H2 & H3 & H4).
  cbv zeta. unfold train.training_loop.
  split; [exact H1|]. split; [lia|]. split; [|exact H4].
  intros H. apply H3 in H. lia.
Qed.

(** X1. The loop never runs more than [args.epochs] epochs, runs exactly
    that many unless early stopping fires, and the recorded history is the
    metrics of the epochs run, in order. *)
Theorem training_loop_epoch_budget :
  let r := train.training_loop a run_epoch in
  train.epochs_run r <= train.epochs a /\
  (train.early_stopped r = false -> train.epochs_run r = train.epochs a) /\
  train.train_history (train.final r) = map run_epoch (seq 0 (train.epochs_run r)).
Proof.
  destruct training_loop_invariant as ((Hh & _) & Hle & Hfull & _).
  cbv zeta. split; [exact Hle|]. split; [exact Hfull | exact Hh].
Qed.

(** X2. The best accuracy bounds every validation accuracy of the run, and
    the checkpoint on disk is that of the first epoch that reached it: the
    epochs before it were strictly worse, no later epoch was better. *)
Theorem checkpoint_is_first_best_epoch :
  let r := train.training_loop a run_epoch in
  (forall e, e < train.epochs_run r ->
     (train.val_acc (run_epoch e) <= train.best_val_acc (train.final r))%Q) /\
  (forall ck, train.best_model_pth (train.final r) = Some ck ->
     train.ck_epoch ck < train.epochs_run r /\
     train.ck_val_acc ck = train.best_val_acc (train.final r) /\
     train.val_acc (run_epoch (train.ck_epoch ck))
       = train.best_val_acc (train.final r) /\
     (forall e, e < train.ck_epoch ck ->
        (train.val_acc (run_epoch e) < train.best_val_acc (train.final r))%Q) /\
     train.ck_n_mels ck = train.n_mels a /\
     train.ck_time_steps ck = train.time_steps a).
Proof.
  destruct training_loop_invariant as ((_ & _ & Hle & Hck) & _).
  cbv zeta. split; [exact Hle|].
  intros ck Hsome. rewrite Hsome in Hck.
  destruct Hck as (Hv & Hlt & Hb & _ & Hfirst & _ & Hn & Ht).
  repeat split; assumption.
Qed.

(** X3. When early stopping fires, the counter stands exactly at the
    threshold (at 1 for a threshold below 1), and the run has lasted that
    many epochs beyond the checkpointed one, or that many epochs in all when
    no checkpoint was written. *)
Theorem early_stop_follows_best_epoch_by_patience :
  let r := train.training_loop a run_epoch in
  train.early_stopped r = true ->
  train.patience_counter (train.final r)
    = Z.max 1 (train.early_stopping_patience a) /\
  match train.best_model_pth (train.final r) with
  | Some ck =>
      Z.of_nat (train.epochs_run r)
      = (Z.of_nat (train.ck_epoch ck) + 1
         + Z.max 1 (train.early_stopping_patience a))%Z
  | None =>
      Z.of_nat (train.epochs_run r) = Z.max 1 (train.early_stopping_patience a)
  end.
Proof.
  destruct training_loop_invariant as ((_ & _ & _ & Hck) & _ & _ & Hstop).
  cbv zeta. intros Hes. specialize (Hstop Hes). split; [exact Hstop|].
  destruct (train.best_model_pth _) as [ck|].
  - destruct Hck as (_ & Hlt & _ & _ & _ & Hc & _). lia.
  - destruct Hck as (_ & Hc). lia.
Qed.

(** X4. The run writes no checkpoint exactly when no epoch had a positive
    validation accuracy (in particular when no epoch ran). *)
Theorem no_checkpoint_iff_no_positive_accuracy :
  let r := train.training_loop a run_epoch in
  train.best_model_pth (train.final r) = None <->
  (forall e, e < train.epochs_run r -> (train.val_acc (run_epoch e) <= 0)%Q).
Proof.
  destruct training_loop_invariant as ((_ & _ & Hle & Hck) & _).
  cbv zeta. split.
  - intros Hnone. rewrite Hnone in Hck. destruct Hck as (Hb & _).
    intros e He. specialize (Hle e He). rewrite Hb in Hle. exact Hle.
  - intros Hall. destruct (train.best_model_pth _) as [ck|]; [|reflexivity].
    destruct Hck as (_ & Hlt & Hb & Hpos & _).
    specialize (Hall _ Hlt). rewrite Hb in Hall.
    exfalso. apply (Qlt_not_le _ _ Hpos). exact Hall.
Qed.

End LoopProperties.

Lemma early_stop_follows_best_epoch_by_patience_witness :
  let r := train.training_loop example_args
             (train.metrics_of_val_accs example_val_accs) in
  train.patience_counter (train.final r) = Z.max 1 2 /\
  match train.best_model_pth (train.final r) with
  | Some ck =>
      Z.of_nat (train.epochs_run r) = (Z.of_nat (train.ck_epoch ck) + 1 + Z.max 1 2)%Z
  | None => Z.of_nat (train.epochs_run r) = Z.max 1 2
  end.
Proof.
  apply (early_stop_follows_best_epoch_by_patience example_args
           (train.metrics_of_val_accs example_val_accs)).
  reflexivity.
Defined.

(** ** The dataset object *)

Lemma class_count_cons (s : dataset.sample) (rows : list dataset.sample)
    (emotion : string) :
  dataset.class_count (s :: rows) emotion
  = (if decide (dataset.label s = emotion) then 1 else 0)
    + dataset.class_count rows emotion.
Proof.
  unfold dataset.class_count. rewrite filter_cons.
  destruct (decide (dataset.label s = emotion)); reflexivity.
Qed.

Lemma unknown_rows_cons (s : dataset.sample) (rows : list dataset.sample) :
  length (unknown_rows (s :: rows))
  = (if decide (dataset.label s ∉ train.EMOTION_CLASSES) then 1 else 0)
    + length (unknown_rows rows).
Proof.
  unfold unknown_rows. rewrite filter_cons.
  destruct (decide (dataset.label s ∉ train.EMOTION_CLASSES)); reflexivity.
Qed.

(** Each row is counted once: under its class, or as unknown. *)
Lemma class_counts_partition (rows : list dataset.sample) :
  list_sum (map (dataset.class_count rows) train.EMOTION_CLASSES)
  + length (unknown_rows rows) = length rows.
Proof.
  induction rows as [|s rows IH]; [reflexivity|].
  rewrite unknown_rows_cons. unfold train.EMOTION_CLASSES in *.
  cbn [map list_sum fold_right] in *. rewrite !class_count_cons. cbn [length].
  assert (Hone :
    (if decide (dataset.label s = "happy"%string) then 1 else 0)
    + (if decide (dataset.label s = "sad"%string) then 1 else 0)
    + (if decide (dataset.label s = "angry"%string) then 1 else 0)
    + (if decide (dataset.label s = "surprised"%string) then 1 else 0)
    + (if decide (dataset.label s = "neutral"%string) then 1 else 0)
    + (if decide (dataset.label s ∉
                  ["happy"; "sad"; "angry"; "surprised"; "neutral"]%string)
       then 1 else 0) = 1).
  { destruct (decide (dataset.label s ∉ _)) as [Hout|Hin].
    - repeat (destruct (decide (dataset.label s = _)) as [Heq|_];
              [exfalso; apply Hout; rewrite Heq;
               repeat first [apply list_elem_of_here | apply list_elem_of_further]|]).
      reflexivity.
    - apply dec_stable in Hin.
      repeat (apply elem_of_cons in Hin as [Hin|Hin];
              [rewrite Hin; repeat case_decide;
               first [reflexivity | congruence]|]).
      inversion Hin. }
  lia.
Qed.

(** X5. The constructor prints the number of rows and, for each of the five
    classes in order, the number of rows with that label; rows with any
    other label are accepted but appear in no count, so the five counts add
    up to the number of rows less the rows with unknown labels. *)
Theorem class_distribution_skips_unknown_labels :
  forall read_csv csv dir nm ts sr aug ds out,
    dataset.__init__ read_csv csv dir nm ts sr aug = py.Ok (ds, out) ->
    out = dataset.Loaded (length (dataset.samples ds))
          :: dataset.ClassDistribution
          :: map (fun emotion =>
                    dataset.ClassCount emotion
                      (dataset.class_count (dataset.samples ds) emotion))
                 train.EMOTION_CLASSES /\
    list_sum (map (dataset.class_count (dataset.samples ds)) train.EMOTION_CLASSES)
    + length (unknown_rows (dataset.samples ds))
    = length (dataset.samples ds).
Proof.
  intros read_csv csv dir nm ts sr aug ds out.
  unfold dataset.__init__, mbind, result_bind, py.bind.
  destruct (read_csv csv) as [rows|e]; [|discriminate].
  intros H. injection H as <- <-. cbn [dataset.samples].
  split; [reflexivity | apply class_counts_partition].
Qed.

Lemma class_distribution_skips_unknown_labels_witness :
  let rows := [ {| dataset.path := "a.wav"; dataset.label := "sad" |};
                {| dataset.path := "b.wav"; dataset.label := "bored" |};
                {| dataset.path := "c.wav"; dataset.label := "sad" |} ] in
  exists ds out,
    dataset.__init__ (fun _ => py.Ok rows) "labels.csv" "data" 4 3 16 false
      = py.Ok (ds, out) /\
    list_sum (map (dataset.class_count (dataset.samples ds)) train.EMOTION_CLASSES)
    + length (unknown_rows (dataset.samples ds))
    = length (dataset.samples ds).
Proof.
  intros rows. eexists. eexists. split; [reflexivity|].
  eapply (class_distribution_skips_unknown_labels (fun _ => py.Ok rows)
            "labels.csv" "data" 4 3 16 false).
  reflexivity.
Defined.

Lemma int_of_float_inject (n : nat) :
  Z.to_nat (int_of_float (inject_Z (Z.of_nat n) * 1)) = n.
Proof.
  unfold int_of_float, Qmult, inject_Z. cbn [Qnum Qden].
  rewrite Z.mul_1_r. change (Z.pos (1 * 1)) with 1%Z.
  rewrite Z.quot_1_r. apply Nat2Z.id.
Qed.


(** X7. A fetch that returns gives the position of the sample's label in the
    fixed class list as class index, for a dataset built by the
    constructor. *)
Theorem fetched_label_is_class_position :
  forall (K : librosa.kernels) read_csv path_join csv dir nm ts sr aug ds out
         (idx : Z) (d : dataset.draws) (spectrogram : np.ndarray2) (label : nat),
    dataset.__init__ read_csv csv dir nm ts sr aug = py.Ok (ds, out) ->
    dataset.__getitem__ K path_join ds idx d = py.Ok (spectrogram, label) ->
    exists s,
      py.getitem (dataset.samples ds) idx = py.Ok s /\
      train.EMOTION_CLASSES !! label = Some (dataset.label s) /\
      ml_model.EMOTIONS !! label = Some (dataset.label s) /\
      label < 5.
Proof.
  intros K read_csv path_join csv dir nm ts sr aug ds out idx d sp l Hinit.
  apply dataset_init_classes in Hinit as (_ & Hmap & _).
  unfold dataset.__getitem__, mbind, result_bind, py.bind.
  destruct (py.getitem (dataset.samples ds) idx) as [s|e]; [|discriminate].
  unfold py.dict_getitem. rewrite Hmap.
  destruct (train.EMOTION_TO_IDX !! dataset.label s) as [i|] eqn:Hi;
    [|discriminate].
  intros H. assert (i = l) as -> by (destruct (dataset.use_augmentation ds); congruence).
  apply EMOTION_TO_IDX_Some in Hi.
  exists s. repeat split; try assumption.
  apply lookup_lt_Some in Hi. exact Hi.
Qed.

Lemma fetched_label_is_class_position_witness :
  exists s,
    py.getitem example_manifest 2 = py.Ok s /\
    train.EMOTION_CLASSES !! 2 = Some (dataset.label s) /\
    ml_model.EMOTIONS !! 2 = Some (dataset.label s) /\
    2 < 5.
Proof.
  destruct (dataset.__init__ (fun _ => py.Ok example_manifest) "labels.csv"
              "data" 2 3 8 false) as [[ds out]|e] eqn:Hinit;
    [|discriminate Hinit].
  pose proof (fetched_label_is_class_position example_kernels
                (fun _ => py.Ok example_manifest) example_path_join
                "labels.csv" "data" 2 3 8 false ds out 2 example_draws
                (dataset._load_and_preprocess example_kernels ds "data/c.wav") 2
                Hinit) as H.
  injection Hinit as <- _.
  apply H. reflexivity.
Defined.

(** ** Augmentation, cell by cell *)

Lemma cell_add_cells (a : list (list Q)) b i j :
  cell (np.add_cells a b) i j = (fun x => (x + b i j)%Q) <$> cell a i j.
Proof.
  unfold cell, np.add_cells. rewrite list_lookup_imap.
  destruct (a !! i) as [row|]; [|reflexivity].
  simpl. apply list_lookup_imap.
Qed.

Lemma cell_scale (a : list (list Q)) g i j :
  cell (np.scale a g) i j = (fun x => (x * g)%Q) <$> cell a i j.
Proof.
  unfold cell, np.scale.
  change (map (map (fun x => (x * g)%Q)) a)
    with ((map (fun x => (x * g)%Q)) <$> a).
  rewrite list_lookup_fmap.
  destruct (a !! i) as [row|]; [|reflexivity].
  simpl. apply (list_lookup_fmap (fun x => (x * g)%Q)).
Qed.

Lemma cell_zero_cols (a : list (list Q)) s w i j :
  cell (np.zero_cols a s w) i j
  = (fun x => if ((s <=? j) && (j <? s + w))%bool then 0%Q else x) <$> cell a i j.
Proof.
  unfold cell, np.zero_cols.
  match goal with
  | |- context [map ?f a] => change (map f a) with (f <$> a)
  end.
  rewrite list_lookup_fmap.
  destruct (a !! i) as [row|]; [|reflexivity].
  simpl. apply list_lookup_imap.
Qed.

Lemma cell_zero_rows (a : list (list Q)) s h i j :
  cell (np.zero_rows a s h) i j
  = (fun x => if ((s <=? i) && (i <? s + h))%bool then 0%Q else x) <$> cell a i j.
Proof.
  unfold cell, np.zero_rows. rewrite list_lookup_imap.
  destruct (a !! i) as [row|]; [|reflexivity].
  simpl. destruct ((s <=? i) && (i <? s + h))%bool.
  - apply (list_lookup_fmap (fun _ : Q => 0%Q)).
  - destruct (row !! j); reflexivity.
Qed.

Lemma randint_bounds raw lo hi :
  lo < hi -> lo <= randint raw lo hi < hi.
Proof.
  intros H. unfold randint.
  pose proof (Nat.mod_upper_bound raw (hi - lo)). lia.
Qed.

(** What [_augment] leaves in one cell. *)
Lemma augment_cell self d a i j x :
  cell a i j = Some x ->
  let width := randint (dataset.time_width_raw d) 1 5 in
  let t0 := randint (dataset.time_start_raw d) 0
              (Nat.max 1 (dataset.time_steps self - width)) in
  let height := randint (dataset.freq_height_raw d) 1 8 in
  let f0 := randint (dataset.freq_start_raw d) 0
              (Nat.max 1 (dataset.n_mels self - height)) in
  let in_time_mask :=
    (negb (Qle_bool (dataset.time_gate d) (1 # 2))
     && ((t0 <=? j) && (j <? t0 + width)))%bool in
  let in_freq_mask :=
    (negb (Qle_bool (dataset.freq_gate d) (1 # 2))
     && ((f0 <=? i) && (i <? f0 + height)))%bool in
  cell (dataset._augment self d a) i j
  = Some (if (in_time_mask || in_freq_mask)%bool then 0%Q
          else ((x + dataset.noise d i j) * dataset.gain d)%Q).
Proof.
  intros Hx. cbv zeta. unfold dataset._augment.
  destruct (negb (Qle_bool (dataset.freq_gate d) (1 # 2)));
    destruct (negb (Qle_bool (dataset.time_gate d) (1 # 2)));
    repeat first [ rewrite cell_zero_rows | rewrite cell_zero_cols ];
    rewrite cell_scale, cell_add_cells, Hx;
    cbn [fmap option_fmap option_map andb orb];
    repeat match goal with
           | |- context [Nat.leb ?n ?m] => destruct (Nat.leb n m)
           | |- context [Nat.ltb ?n ?m] => destruct (Nat.ltb n m)
           end; reflexivity.
Qed.

(** X8. Cell by cell, [_augment] adds the cell's noise and multiplies by the
    gain, then writes 0 into the cells of the time mask and of the frequency
    mask when their gates are taken; the time mask is 1 to 4 columns wide,
    the frequency mask 1 to 7 rows high. *)
Theorem augment_cell_by_cell :
  forall (self : dataset.AudioEmotionDataset) (d : dataset.draws)
         (a : np.ndarray2) (i j : nat) (x : Q),
    cell a i j = Some x ->
    let width := randint (dataset.time_width_raw d) 1 5 in
    let t0 := randint (dataset.time_start_raw d) 0
                (Nat.max 1 (dataset.time_steps self - width)) in
    let height := randint (dataset.freq_height_raw d) 1 8 in
    let f0 := randint (dataset.freq_start_raw d) 0
                (Nat.max 1 (dataset.n_mels self - height)) in
    let in_time_mask :=
      (negb (Qle_bool (dataset.time_gate d) (1 # 2))
       && ((t0 <=? j) && (j <? t0 + width)))%bool in
    let in_freq_mask :=
      (negb (Qle_bool (dataset.freq_gate d) (1 # 2))
       && ((f0 <=? i) && (i <? f0 + height)))%bool in
    cell (dataset._augment self d a) i j
    = Some (if (in_time_mask || in_freq_mask)%bool then 0%Q
            else ((x + dataset.noise d i j) * dataset.gain d)%Q) /\
    1 <= width <= 4 /\ 1 <= height <= 7 /\
    t0 < Nat.max 1 (dataset.time_steps self - width) /\
    f0 < Nat.max 1 (dataset.n_mels self - height).
Proof.
  intros self d a i j x Hx. cbv zeta.
  split; [exact (augment_cell self d a i j x Hx)|].
  pose proof (randint_bounds (dataset.time_width_raw d) 1 5 ltac:(lia)).
  pose proof (randint_bounds (dataset.freq_height_raw d) 1 8 ltac:(lia)).
  pose proof (randint_bounds (dataset.time_start_raw d) 0
                (Nat.max 1 (dataset.time_steps self
                            - randint (dataset.time_width_raw d) 1 5)) ltac:(lia)).
  pose proof (randint_bounds (dataset.freq_start_raw d) 0
                (Nat.max 1 (dataset.n_mels self
                            - randint (dataset.freq_height_raw d) 1 8)) ltac:(lia)).
  lia.
Qed.

Lemma augment_cell_by_cell_witness :
  cell (dataset._augment example_dataset example_draws
          [[1 # 2; -(3); 0]; [7; 1 # 3; 2]]%Q) 1 2
  = Some ((2 + (1 # 100)) * (11 # 10))%Q.
Proof.
  destruct (augment_cell_by_cell example_dataset example_draws
              [[1 # 2; -(3); 0]; [7; 1 # 3; 2]]%Q 1 2 2%Q eq_refl) as [H _].
  exact H.
Defined.

(** X9. On a spectrogram of at least 8 mel bands and 5 frames, of the
    dataset's shape, the cell of the last band and last frame is never
    masked: the mask positions are drawn below the last row and column. *)
Theorem augment_never_masks_last_cell :
  forall (self : dataset.AudioEmotionDataset) (d : dataset.draws)
         (a : np.ndarray2) (x : Q),
    8 <= dataset.n_mels self ->
    5 <= dataset.time_steps self ->
    cell a (dataset.n_mels self - 1) (dataset.time_steps self - 1) = Some x ->
    cell (dataset._augment self d a)
         (dataset.n_mels self - 1) (dataset.time_steps self - 1)
    = Some ((x + dataset.noise d (dataset.n_mels self - 1)
                               (dataset.time_steps self - 1))
            * dataset.gain d)%Q.
Proof.
  intros self d a x Hm Ht Hx.
  rewrite (augment_cell self d a _ _ x Hx). cbv zeta.
  pose proof (randint_bounds (dataset.time_width_raw d) 1 5 ltac:(lia)) as Hw.
  pose proof (randint_bounds (dataset.freq_height_raw d) 1 8 ltac:(lia)) as Hh.
  pose proof (randint_bounds (dataset.time_start_raw d) 0
                (Nat.max 1 (dataset.time_steps self
                            - randint (dataset.time_width_raw d) 1 5)) ltac:(lia))
    as Ht0.
  pose proof (randint_bounds (dataset.freq_start_raw d) 0
                (Nat.max 1 (dataset.n_mels self
                            - randint (dataset.freq_height_raw d) 1 8)) ltac:(lia))
    as Hf0.
  match goal with
  | |- context [(?s <=? dataset.time_steps self - 1) && (_ <? ?s + ?w)] =>
      replace (dataset.time_steps self - 1 <? s + w) with false
        by (symmetry; apply Nat.ltb_ge; lia)
  end.
  match goal with
  | |- context [(?s <=? dataset.n_mels self - 1) && (_ <? ?s + ?h)] =>
      replace (dataset.n_mels self - 1 <? s + h) with false
        by (symmetry; apply Nat.ltb_ge; lia)
  end.
  rewrite !andb_false_r. reflexivity.
Qed.

Lemma augment_never_masks_last_cell_witness :
  let self := dataset.set_use_augmentation true
                {| dataset.data_dir := "data"; dataset.n_mels := 8;
                   dataset.time_steps := 5; dataset.sample_rate := 8;
                   dataset.use_augmentation := true; dataset.samples := [];
                   dataset.emotion_classes := train.EMOTION_CLASSES;
                   dataset.emotion_to_idx := train.EMOTION_TO_IDX |} in
  let a := repeat (repeat (1 # 2) 5) 8 in
  cell (dataset._augment self example_draws a) 7 4
  = Some (((1 # 2) + (1 # 100)) * (11 # 10))%Q.
Proof.
  intros self a.
  apply (augment_never_masks_last_cell self example_draws a (1 # 2)).
  - simpl. lia.
  - simpl. lia.
  - reflexivity.
Defined.

(** ** The train/validation split and the validation pass *)









Section ValidateProperties.

Variable forward : np.ndarray2 -> list Q.
Variable criterion : list (list Q) -> list nat -> Q.
Variable confusion_matrix : list nat -> list nat -> list (list nat).

(** The three accumulators after the loop. *)
Lemma fold_accumulate (batches : list train_eval.batch) (r : Q) (p l : list nat) :
  exists r',
    fold_left (train_eval.accumulate forward criterion) batches (r, p, l)
    = (r',
       p ++ flat_map (fun b => map (train_eval.predicted_class)
                                   (map forward (train_eval.spectrograms b)))
                     batches,
       l ++ flat_map train_eval.labels batches) /\
    (r' == r + Qsum (map (batch_loss forward criterion) batches))%Q.
Proof.
  revert r p l. induction batches as [|b bs IH]; intros r p l.
  - exists r. simpl. rewrite !app_nil_r. split; [reflexivity|].
    unfold Qsum. simpl. ring.
  - cbn [fold_left]. unfold train_eval.accumulate at 2.
    destruct (IH (r + criterion (map forward (train_eval.spectrograms b))
                               (train_eval.labels b))%Q
                 (p ++ map train_eval.predicted_class
                        (map forward (train_eval.spectrograms b)))
                 (l ++ train_eval.labels b)) as (r' & -> & Hr).
    exists r'. cbn [flat_map map]. rewrite <- !app_assoc.
    split; [reflexivity|]. rewrite Hr. unfold Qsum, batch_loss. simpl. ring.
Qed.

Lemma accuracy_score_unit_interval (y_true y_pred : list nat) :
  (0 <= train_eval.accuracy_score y_true y_pred <= 1)%Q.
Proof.
  unfold train_eval.accuracy_score.
  set (hits := length (filter (fun p : nat * nat => p.1 = p.2) (zip y_true y_pred))).
  assert (Hhits : hits <= length y_true).
  { unfold hits. etransitivity; [apply length_filter|].
    rewrite length_zip. lia. }
  destruct (length y_true) as [|n] eqn:Hn.
  - assert (hits = 0) as -> by lia. split; discriminate.
  - assert (Hpos : (0 < inject_Z (Z.of_nat (S n)))%Q).
    { rewrite <- (Zlt_Qlt 0). lia. }
    split.
    + apply Qle_shift_div_l; [exact Hpos|].
      rewrite Qmult_0_l. rewrite <- (Zle_Qle 0). lia.
    + apply Qle_shift_div_r; [exact Hpos|].
      rewrite Qmult_1_l. rewrite <- Zle_Qle. lia.
Qed.

(** X12. On a loader with at least one batch, [validate] returns: the loss
    is the sum of the batch losses divided by the number of batches (a short
    last batch weighs as much as a full one), and the accuracy, taken over
    all samples in loader order, lies between 0 and 1. *)
Theorem validate_averages_over_batches :
  forall batches : list train_eval.batch,
    batches <> [] ->
    exists loss,
      train_eval.validate forward criterion confusion_matrix batches
      = train_eval.Done
          (loss,
           train_eval.accuracy_score
             (flat_map train_eval.labels batches)
             (flat_map (fun b => map train_eval.predicted_class
                                     (map forward (train_eval.spectrograms b)))
                       batches),
           confusion_matrix
             (flat_map train_eval.labels batches)
             (flat_map (fun b => map train_eval.predicted_class
                                     (map forward (train_eval.spectrograms b)))
                       batches)) /\
      (loss * inject_Z (Z.of_nat (length batches))
       == Qsum (map (batch_loss forward criterion) batches))%Q /\
      (0 <= train_eval.accuracy_score
              (flat_map train_eval.labels batches)
              (flat_map (fun b => map train_eval.predicted_class
                                      (map forward (train_eval.spectrograms b)))
                        batches) <= 1)%Q.
Proof.
  intros batches Hne. unfold train_eval.validate.
  destruct (fold_accumulate batches 0%Q [] []) as (r' & -> & Hr).
  destruct batches as [|b bs]; [contradiction|].
  cbn [length Nat.eqb app].
  eexists. split; [reflexivity|]. split.
  - rewrite Hr. field.
    intros H. apply (Qlt_irrefl 0). rewrite <- H at 2.
    rewrite <- (Zlt_Qlt 0). lia.
  - apply accuracy_score_unit_interval.
Qed.

End ValidateProperties.

Lemma validate_averages_over_batches_witness :
  let batches :=
    [ {| train_eval.spectrograms := [[[1 # 2]]; [[1 # 3]]];
         train_eval.labels := [1; 0] |};
      {| train_eval.spectrograms := [[[1 # 4]]];
         train_eval.labels := [1] |} ] in
  exists loss,
    train_eval.validate (fun _ => [0; 1; 0; 0; 0]%Q)
      (fun _ labels => inject_Z (Z.of_nat (length labels))) (fun _ _ => [])
      batches
    = train_eval.Done (loss, (2 # 3)%Q, []) /\
    (loss == 3 # 2)%Q.
Proof.
  intros batches.
  destruct (validate_averages_over_batches (fun _ => [0; 1; 0; 0; 0]%Q)
              (fun _ labels => inject_Z (Z.of_nat (length labels)))
              (fun _ _ => []) batches ltac:(discriminate))
    as (loss & Hv & Hl & _).
  exists loss. split.
  - rewrite Hv. vm_compute. reflexivity.
  - vm_compute in Hv. injection Hv as <-. reflexivity.
Defined.

(** ** The serving classifier with a model *)

(** The running arg-max: either the incumbent stays, or the first position
    that holds the largest value wins. *)
Lemma argmax_from_spec (l : list Q) (best_i i : nat) (best : Q) :
  (ml_model.argmax_from best_i best i l = best_i /\
   forall p, In p l -> (p <= best)%Q) \/
  (exists j c,
     ml_model.argmax_from best_i best i l = i + j /\
     l !! j = Some c /\ (best < c)%Q /\
     (forall p, In p l -> (p <= c)%Q) /\
     (forall j' p, j' < j -> l !! j' = Some p -> (p < c)%Q)).
Proof.
  revert best_i i best. induction l as [|x l IH]; intros best_i i best.
  - left. split; [reflexivity|]. intros p [].
  - cbn [ml_model.argmax_from].
    destruct (Qle_bool x best) eqn:E.
    + apply Qle_bool_iff in E.
      destruct (IH best_i (S i) best) as [[Hk Hall]|(j & c & Hk & Hj & Hc & Hall & Hfirst)].
      * left. split; [exact Hk|]. intros p [<-|Hp]; [exact E | apply Hall, Hp].
      * right. exists (S j), c. repeat split.
        -- rewrite Hk. lia.
        -- exact Hj.
        -- exact Hc.
        -- intros p [<-|Hp]; [|apply Hall, Hp].
           apply Qlt_le_weak. eapply Qle_lt_trans; eassumption.
        -- intros j' p Hlt Hp. destruct j' as [|j'].
           ++ injection Hp as <-. eapply Qle_lt_trans; eassumption.
           ++ apply (Hfirst j' p); [lia | exact Hp].
    + assert (Hgt : (best < x)%Q).
      { apply Qnot_le_lt. intros Hc. apply Qle_bool_iff in Hc. congruence. }
      destruct (IH i (S i) x) as [[Hk Hall]|(j & c & Hk & Hj & Hc & Hall & Hfirst)].
      * right. exists 0, x. repeat split.
        -- rewrite Hk. lia.
        -- exact Hgt.
        -- intros p [<-|Hp]; [apply Qle_refl | apply Hall, Hp].
        -- intros j' p Hlt. lia.
      * right. exists (S j), c. repeat split.
        -- rewrite Hk. lia.
        -- exact Hj.
        -- eapply Qlt_trans; eassumption.
        -- intros p [<-|Hp]; [apply Qlt_le_weak, Hc | apply Hall, Hp].
        -- intros j' p Hlt Hp. destruct j' as [|j'].
           ++ injection Hp as <-. exact Hc.
           ++ apply (Hfirst j' p); [lia | exact Hp].
Qed.

(** [np.argmax] on a non-empty row: the first position of the maximum. *)
Lemma argmax_spec (row : list Q) :
  row <> [] ->
  exists i c,
    ml_model.argmax row = py.Ok i /\ row !! i = Some c /\
    (forall p, In p row -> (p <= c)%Q) /\
    (forall j p, j < i -> row !! j = Some p -> (p < c)%Q).
Proof.
  destruct row as [|x l]; [contradiction|]. intros _.
  unfold ml_model.argmax.
  destruct (argmax_from_spec l 0 1 x)
    as [[Hk Hall]|(j & c & Hk & Hj & Hc & Hall & Hfirst)].
  - exists 0, x. rewrite Hk. repeat split.
    + intros p [<-|Hp]; [apply Qle_refl | apply Hall, Hp].
    + intros j p Hlt. lia.
  - exists (S j), c. rewrite Hk. repeat split.
    + exact Hj.
    + intros p [<-|Hp]; [apply Qlt_le_weak, Hc | apply Hall, Hp].
    + intros j' p Hlt Hp. destruct j' as [|j'].
      * injection Hp as <-. exact Hc.
      * apply (Hfirst j' p); [lia | exact Hp].
Qed.

Lemma py_getitem_nat_out {A} (l : list A) (i : nat) :
  length l <= i ->
  py.getitem l (Z.of_nat i) = py.Raise (py.IndexError "list index out of range").
Proof.
  intros Hge. unfold py.getitem.
  replace (Z.of_nat i <? 0)%Z with false by (symmetry; apply Z.ltb_ge; lia).
  replace (Z.of_nat i <? Z.of_nat (length l))%Z with false
    by (symmetry; apply Z.ltb_ge; lia).
  rewrite andb_false_r. reflexivity.
Qed.

Section ServingWithModel.

Context {keras_model rng : Type}.
Variable E : ml_model.environment keras_model rng.

(** X13. With a model loaded and features extracted, [classify] returns the
    label at the first position of the largest prediction, with that
    prediction as confidence, and touches neither the generator nor
    standard output; a position beyond the five labels raises
    [IndexError]. *)
Theorem classify_returns_first_maximum :
  forall (self : ml_model.EmotionClassifier) (m : keras_model)
         (audio_path : string) (features : ml_model.ndarray4)
         (row : list Q) (rest : list (list Q))
         (s : @ml_model.process keras_model rng),
    ml_model.model self = Some m ->
    ml_model.extract_features_body E audio_path = py.Ok features ->
    ml_model.predict E m features = py.Ok (row :: rest) ->
    row <> [] ->
    exists i confidence,
      ml_model.argmax row = py.Ok i /\
      row !! i = Some confidence /\
      (forall p, In p row -> (p <= confidence)%Q) /\
      (forall j p, j < i -> row !! j = Some p -> (p < confidence)%Q) /\
      ml_model.classify E self audio_path s
      = (match ml_model.EMOTIONS !! i with
         | Some emotion => py.Ok (emotion, confidence)
         | None => py.Raise (py.IndexError "list index out of range")
         end, s).
Proof.
  intros self m audio_path features row rest s Hm Hf Hp Hrow.
  destruct (argmax_spec row Hrow) as (i & c & Hi & Hc & Hall & Hfirst).
  exists i, c. repeat split; try assumption.
  assert (Hget0 : py.getitem (row :: rest) 0 = py.Ok row)
    by (apply (py_getitem_nat _ 0); reflexivity).
  unfold ml_model.classify. rewrite Hm.
  unfold ml_model.extract_features. rewrite Hf.
  unfold mbind, ml_model.M_bind, mret, ml_model.M_ret, ml_model.lift.
  rewrite Hp, Hget0, Hi, (py_getitem_nat _ _ _ Hc).
  destruct (ml_model.EMOTIONS !! i) as [emotion|] eqn:He.
  - rewrite (py_getitem_nat _ _ _ He). reflexivity.
  - apply lookup_ge_None in He. rewrite (py_getitem_nat_out _ _ He). reflexivity.
Qed.

(** X14. With a model loaded, a file that cannot be decoded makes
    [classify] log the extraction error and answer like the stub: one of the
    five labels, a confidence between 0.6 and 0.9, no exception. *)
Theorem classify_falls_back_on_decode_failure :
  forall (self : ml_model.EmotionClassifier) (m : keras_model)
         (audio_path : string) (e : py.exn)
         (s : @ml_model.process keras_model rng),
    ml_model.model self = Some m ->
    librosa.load (ml_model.K E) audio_path ml_model.SAMPLE_RATE
      (Some ml_model.DURATION) = py.Raise e ->
    exists emotion confidence s',
      ml_model.classify E self audio_path s = (py.Ok (emotion, confidence), s') /\
      emotion ∈ ml_model.EMOTIONS /\
      (6 # 10 <= confidence <= 9 # 10)%Q /\
      ml_model.stdout s'
      = ml_model.stdout s ++ [ml_model.ErrorExtracting audio_path (py.str e)].
Proof.
  intros self m audio_path e s Hm Hload.
  unfold ml_model.classify. rewrite Hm.
  unfold ml_model.extract_features, ml_model.extract_features_body.
  unfold mbind at 2. unfold result_bind, py.bind. rewrite Hload.
  unfold mbind, ml_model.M_bind, mret, ml_model.M_ret, ml_model.print.
  match goal with
  | |- context [ml_model._stub_classify E ?s1] =>
      destruct (stub_classify_spec E s1)
        as (emotion & confidence & s' & -> & He & Hc & Hout & _)
  end.
  exists emotion, confidence, s'. repeat split; try assumption; apply Hc.
Qed.

(** X15. [get_classifier] is a lazy singleton: a call that returns leaves
    its result in the module global, and every later call returns that same
    object without probing the file system or printing; an object already
    there is returned as it is. *)
Theorem get_classifier_is_singleton :
  forall (s s1 : @ml_model.process keras_model rng)
         (c : ml_model.EmotionClassifier),
    ml_model.get_classifier E s = (py.Ok c, s1) ->
    ml_model._classifier s1 = Some c /\
    ml_model.get_classifier E s1 = (py.Ok c, s1) /\
    (forall c0, ml_model._classifier s = Some c0 -> c = c0 /\ s1 = s).
Proof.
  intros s s1 c. unfold ml_model.get_classifier at 1.
  destruct (ml_model._classifier s) as [c0|] eqn:Hg.
  - intros H. injection H as <- <-.
    split; [exact Hg|]. split.
    + unfold ml_model.get_classifier. rewrite Hg. reflexivity.
    + intros c1 H1. injection H1 as <-. split; reflexivity.
  - destruct (ml_model.__init__ E None s) as [[c'|e] s'] eqn:Hinit;
      [|discriminate].
    intros H. injection H as <- <-. cbn [ml_model._classifier].
    split; [reflexivity|]. split; [|discriminate].
    unfold ml_model.get_classifier. reflexivity.
Qed.


End ServingWithModel.

Lemma classify_returns_first_maximum_witness :
  exists i confidence,
    ml_model.argmax [1 # 10; 6 # 10; 1 # 10; 6 # 10; 1 # 10]%Q = py.Ok i /\
    [1 # 10; 6 # 10; 1 # 10; 6 # 10; 1 # 10]%Q !! i = Some confidence /\
    (forall p, In p [1 # 10; 6 # 10; 1 # 10; 6 # 10; 1 # 10]%Q -> (p <= confidence)%Q) /\
    (forall j p, j < i ->
       [1 # 10; 6 # 10; 1 # 10; 6 # 10; 1 # 10]%Q !! j = Some p ->
       (p < confidence)%Q) /\
    ml_model.classify predicting_environment loaded_classifier "clip.wav"
      example_process
    = (match ml_model.EMOTIONS !! i with
       | Some emotion => py.Ok (emotion, confidence)
       | None => py.Raise (py.IndexError "list index out of range")
       end, example_process).
Proof.
  destruct (extract_features_returns predicting_environment "clip.wav"
              [1 # 2; -(1 # 4); 1 # 8]%Q example_process eq_refl)
    as [features Hf].
  apply extract_features_some in Hf.
  apply (classify_returns_first_maximum predicting_environment
           loaded_classifier tt "clip.wav" features
           [1 # 10; 6 # 10; 1 # 10; 6 # 10; 1 # 10]%Q [] example_process).
  - reflexivity.
  - exact Hf.
  - reflexivity.
  - discriminate.
Defined.

Lemma classify_falls_back_on_decode_failure_witness :
  exists emotion confidence s',
    ml_model.classify failing_environment loaded_classifier "clip.wav"
      example_process = (py.Ok (emotion, confidence), s') /\
    emotion ∈ ml_model.EMOTIONS /\
    (6 # 10 <= confidence <= 9 # 10)%Q /\
    ml_model.stdout s'
    = ml_model.stdout example_process
      ++ [ml_model.ErrorExtracting "clip.wav"
            (py.str (py.LibraryError "cannot decode"))].
Proof.
  apply (classify_falls_back_on_decode_failure failing_environment
           loaded_classifier tt "clip.wav" (py.LibraryError "cannot decode")
           example_process).
  - reflexivity.
  - reflexivity.
Defined.

Lemma get_classifier_is_singleton_witness :
  exists c s1,
    ml_model.get_classifier example_environment example_process = (py.Ok c, s1) /\
    ml_model._classifier s1 = Some c /\
    ml_model.get_classifier example_environment s1 = (py.Ok c, s1).
Proof.
  destruct (ml_model.get_classifier example_environment example_process)
    as [[c|e] s1] eqn:Hg; [|discriminate Hg].
  exists c, s1. split; [reflexivity|].
  destruct (get_classifier_is_singleton example_environment example_process s1 c Hg)
    as (H1 & H2 & _).
  split; assumption.
Defined.

(** ** Standard output of the command-line script *)

Section OutputProperties.

Context {keras_model rng : Type}.
Variable E : ml_model.environment keras_model rng.

Lemma quiet_ret {A} (a : A) :
  appends_no_json (@mret _ (@ml_model.M_ret keras_model rng) A a).
Proof.
  intros s r s' H. injection H as <- <-.
  exists []. rewrite app_nil_r. split; [reflexivity | constructor].
Qed.

Lemma quiet_lift {A} (x : py.result A) :
  appends_no_json (@ml_model.lift keras_model rng A x).
Proof.
  intros s r s' H. injection H as <- <-.
  exists []. rewrite app_nil_r. split; [reflexivity | constructor].
Qed.

Lemma quiet_print (l : ml_model.line) :
  is_json l = false -> appends_no_json (@ml_model.print keras_model rng l).
Proof.
  intros Hl s r s' H. injection H as <- <-.
  exists [l]. split; [reflexivity | repeat constructor; exact Hl].
Qed.

Lemma quiet_draw : appends_no_json (ml_model.draw E).
Proof.
  intros s r s'. unfold ml_model.draw.
  destruct (ml_model.next_raw E (ml_model.random_state s)) as [raw g].
  intros H. injection H as <- <-.
  exists []. rewrite app_nil_r. split; [reflexivity | constructor].
Qed.

Lemma quiet_bind {A B} (c : @ml_model.M keras_model rng A)
    (k : A -> @ml_model.M keras_model rng B) :
  appends_no_json c -> (forall a, appends_no_json (k a)) ->
  appends_no_json (@mbind _ (@ml_model.M_bind keras_model rng) A B k c).
Proof.
  intros Hc Hk s r s'. unfold mbind, ml_model.M_bind.
  destruct (c s) as [[a|e] s1] eqn:Hcs.
  - intros Hks.
    destruct (Hc _ _ _ Hcs) as (x1 & H1 & F1).
    destruct (Hk a _ _ _ Hks) as (x2 & H2 & F2).
    exists (x1 ++ x2). rewrite H2, H1, app_assoc.
    split; [reflexivity | apply Forall_app; split; assumption].
  - intros H. injection H as <- <-. apply (Hc _ _ _ Hcs).
Qed.

Lemma quiet_load_model_failed self e :
  appends_no_json (@ml_model.load_model_failed keras_model rng self e).
Proof.
  unfold ml_model.load_model_failed.
  apply quiet_bind; [apply quiet_print; reflexivity | intros _; apply quiet_ret].
Qed.

Lemma quiet_load_model self : appends_no_json (ml_model.load_model E self).
Proof.
  unfold ml_model.load_model.
  apply quiet_bind; [apply quiet_print; reflexivity | intros _].
  destruct (ml_model.load_keras_model E _); [|apply quiet_load_model_failed].
  destruct (ml_model.path_exists E _) as [[|]|]; [| |apply quiet_load_model_failed].
  - destruct (ml_model.json_load E _) as [meta|]; [|apply quiet_load_model_failed].
    apply quiet_bind; [apply quiet_print; reflexivity | intros _].
    destruct (ml_model.test_accuracy meta); [|apply quiet_load_model_failed].
    apply quiet_bind; [apply quiet_print; reflexivity | intros _; apply quiet_ret].
  - apply quiet_bind; [apply quiet_print; reflexivity | intros _; apply quiet_ret].
Qed.

Lemma quiet_init model_path : appends_no_json (ml_model.__init__ E model_path).
Proof.
  unfold ml_model.__init__.
  apply quiet_bind; [apply quiet_lift | intros [|]].
  - apply quiet_load_model.
  - apply quiet_bind; [apply quiet_print; reflexivity | intros _].
    apply quiet_bind; [apply quiet_print; reflexivity | intros _; apply quiet_ret].
Qed.

Lemma quiet_get_classifier : appends_no_json (ml_model.get_classifier E).
Proof.
  intros s r s'. unfold ml_model.get_classifier.
  destruct (ml_model._classifier s).
  - intros H. injection H as <- <-.
    exists []. rewrite app_nil_r. split; [reflexivity | constructor].
  - destruct (ml_model.__init__ E None s) as [[c|e] s1] eqn:Hi;
      intros H; injection H as <- <-; apply (quiet_init None _ _ _ Hi).
Qed.

Lemma quiet_stub_classify : appends_no_json (ml_model._stub_classify E).
Proof.
  unfold ml_model._stub_classify, ml_model.random_choice, ml_model.random_random.
  apply quiet_bind.
  - apply quiet_bind; [apply quiet_draw | intros raw].
    destruct (ml_model.EMOTIONS !! _); [apply quiet_ret | apply quiet_lift].
  - intros emotion. apply quiet_bind.
    + apply quiet_bind; [apply quiet_draw | intros raw; apply quiet_ret].
    + intros r. apply quiet_ret.
Qed.

Lemma quiet_extract_features audio_path :
  appends_no_json (ml_model.extract_features E audio_path).
Proof.
  unfold ml_model.extract_features.
  destruct (ml_model.extract_features_body E audio_path); [apply quiet_ret|].
  apply quiet_bind; [apply quiet_print; reflexivity | intros _; apply quiet_ret].
Qed.

Lemma quiet_classify self audio_path :
  appends_no_json (ml_model.classify E self audio_path).
Proof.
  unfold ml_model.classify.
  destruct (ml_model.model self) as [m|]; [|apply quiet_stub_classify].
  apply quiet_bind; [apply quiet_extract_features | intros [features|]];
    [|apply quiet_stub_classify].
  repeat (apply quiet_bind; [apply quiet_lift | intros ?]).
  apply quiet_ret.
Qed.

(** X17. Whatever happens, [main] writes exactly one JSON document to
    standard output, as the last line; every line written before it (the
    notices of the classifier) is not JSON, and earlier output is kept. *)
Theorem main_prints_one_json_line_last :
  forall (argv : list string) (s : @ml_model.process keras_model rng),
    exists notices payload,
      snd (ml_model.run_script E argv s)
      = ml_model.stdout s ++ notices ++ [ml_model.Json payload] /\
      Forall (fun l => is_json l = false) notices.
Proof.
  intros argv s. destruct argv as [|script [|audio_path rest]].
  - exists [], (ml_model.error_payload "Audio path required").
    split; [reflexivity | constructor].
  - exists [], (ml_model.error_payload "Audio path required").
    split; [reflexivity | constructor].
  - assert (Hget : py.getitem (script :: audio_path :: rest) 1 = py.Ok audio_path)
      by (apply (py_getitem_nat _ 1); reflexivity).
    unfold ml_model.run_script, ml_model.main, ml_model.try_except,
      mbind, ml_model.M_bind, ml_model.lift, ml_model.print,
      mret, ml_model.M_ret.
    cbn [length Nat.ltb Nat.leb]. rewrite Hget. cbv beta iota zeta.
    destruct (ml_model.get_classifier E s) as [[classifier|e] s1] eqn:Hg;
      cbv beta iota zeta;
      destruct (quiet_get_classifier _ _ _ Hg) as (x1 & H1 & F1).
    + destruct (ml_model.classify E classifier audio_path s1)
        as [[[emotion confidence]|e] s2] eqn:Hc; cbv beta iota zeta;
        destruct (quiet_classify _ _ _ _ _ Hc) as (x2 & H2 & F2);
        cbn [snd ml_model.stdout]; rewrite H2, H1, <- !app_assoc;
        eexists (x1 ++ x2); eexists; rewrite <- !app_assoc;
        (split; [reflexivity | apply Forall_app; split; assumption]).
    + cbn [snd ml_model.stdout]. rewrite H1, <- !app_assoc.
      exists x1. eexists. split; [reflexivity | assumption].
Qed.

End OutputProperties.

(** ** Shape of the serving features, and the training script of the same stack *)

Lemma pad_or_trim_length (y : list Q) (n : nat) :
  length (if length y <? n then np.pad_end y (n - length y) else firstn n y) = n.
Proof.
  destruct (length y <? n) eqn:E.
  - apply Nat.ltb_lt in E. unfold np.pad_end.
    rewrite length_app, repeat_length. lia.
  - apply Nat.ltb_ge in E. rewrite length_take. lia.
Qed.

Lemma serving_frame_count :
  librosa.n_frames ml_model.SAMPLE_RATE ml_model.HOP_LENGTH = ml_model.N_FRAMES /\
  ml_model.N_FRAMES = 32 /\ ml_model.N_MELS = 64.
Proof. vm_compute. repeat split; reflexivity. Qed.

Lemma min_max_shape r c (m out : np.ndarray2) :
  ml_model.min_max m = py.Ok out -> np.has_shape r c m -> np.has_shape r c out.
Proof.
  unfold ml_model.min_max.
  destruct (np.amin m) as [lo|]; [|discriminate].
  destruct (np.amax m) as [hi|]; [|discriminate].
  intros H. injection H as <-.
  apply has_shape_row_lengths, row_lengths_map.
  intros row. apply length_map.
Qed.

Section ServingShape.

Context {keras_model rng : Type}.
Variable E : ml_model.environment keras_model rng.

(** X18. The features handed to the model always have the shape of its
    input layer: one batch entry of [N_MELS] = 64 rows, [N_FRAMES] = 32
    columns and one channel, whatever the length of the decoded audio. *)
Theorem serving_features_have_model_input_shape :
  forall (audio_path : string) (features : ml_model.ndarray4),
    ml_model.extract_features_body E audio_path = py.Ok features ->
    exists feature_map,
      features = [feature_map] /\
      length feature_map = ml_model.N_MELS /\
      Forall (fun row =>
                length row = ml_model.N_FRAMES /\
                Forall (fun channels => length channels = 1) row)
             feature_map /\
      ml_model.N_MELS = 64 /\ ml_model.N_FRAMES = 32.
Proof.
  intros audio_path features.
  unfold ml_model.extract_features_body, mbind, result_bind, py.bind.
  destruct (librosa.load _ _ _ _) as [y|e]; [|discriminate].
  rewrite int_of_float_inject.
  destruct (ml_model.min_max _) as [out|e] eqn:Hmm; [|discriminate].
  intros H. injection H as <-.
  eapply min_max_shape in Hmm;
    [|apply has_shape_power_to_db, has_shape_melspectrogram].
  rewrite pad_or_trim_length in Hmm.
  destruct serving_frame_count as (Hframes & H32 & H64).
  rewrite Hframes in Hmm. destruct Hmm as [Hrows Hcols].
  eexists. split; [reflexivity|]. split; [rewrite length_map; exact Hrows|].
  split; [|split; [exact H64 | exact H32]].
  apply Forall_map. eapply Forall_impl; [exact Hcols|].
  intros row Hrow. simpl in *. split; [rewrite length_map; exact Hrow|].
  apply Forall_map, Forall_forall. intros x _. reflexivity.
Qed.

(** X19. The serving extractor computes what the training script's
    [extract_features_from_audio] computes, with a batch axis and a channel
    axis added: it returns features exactly when that one does, and raises
    inside its [try] on the same exception; the two files also agree on the
    label list and on the feature constants. *)
Theorem serving_extractor_matches_training_extractor :
  forall audio_path : string,
    match train_emotion_model.extract_features_from_audio_body
            (ml_model.K E) audio_path with
    | py.Ok mel_spec_db =>
        ml_model.extract_features_body E audio_path
        = py.Ok [map (map (fun x => [x])) mel_spec_db]
    | py.Raise e =>
        ml_model.extract_features_body E audio_path = py.Raise e
    end /\
    train_emotion_model.EMOTIONS = ml_model.EMOTIONS /\
    train_emotion_model.N_MELS = ml_model.N_MELS /\
    train_emotion_model.N_FRAMES = ml_model.N_FRAMES /\
    train_emotion_model.N_CLASSES = 5.
Proof.
  intros audio_path.
  split; [|split; [reflexivity|split; [reflexivity|split; vm_compute; reflexivity]]].
  unfold train_emotion_model.extract_features_from_audio_body,
    ml_model.extract_features_body, ml_model.min_max,
    mbind, result_bind, py.bind.
  change train_emotion_model.SAMPLE_RATE with ml_model.SAMPLE_RATE.
  change train_emotion_model.DURATION with ml_model.DURATION.
  change train_emotion_model.N_MELS with ml_model.N_MELS.
  change train_emotion_model.N_FFT with ml_model.N_FFT.
  change train_emotion_model.HOP_LENGTH with ml_model.HOP_LENGTH.
  destruct (librosa.load _ _ _ _) as [y|e]; [|reflexivity].
  destruct (np.amin _) as [lo|]; [|reflexivity].
  destruct (np.amax _) as [hi|]; reflexivity.
Qed.

End ServingShape.

Lemma serving_features_have_model_input_shape_witness :
  exists features feature_map,
    ml_model.extract_features_body example_environment "clip.wav" = py.Ok features /\
    features = [feature_map] /\
    length feature_map = ml_model.N_MELS /\
    Forall (fun row =>
              length row = ml_model.N_FRAMES /\
              Forall (fun channels => length channels = 1) row)
           feature_map.
Proof.
  destruct (extract_features_returns example_environment "clip.wav"
              [1 # 2; -(1 # 4); 1 # 8]%Q example_process eq_refl)
    as [features Hf].
  apply extract_features_some in Hf.
  destruct (serving_features_have_model_input_shape example_environment
              "clip.wav" features Hf) as (fm & H1 & H2 & H3 & _).
  exists features, fm. repeat split; assumption.
Defined.

(** ** Synthetic training features *)

Lemma has_shape_zeros2 r c : np.has_shape r c (train_emotion_model.zeros2 r c).
Proof.
  unfold train_emotion_model.zeros2. split; [apply repeat_length|].
  apply Forall_forall. intros row Hrow.
  apply list_elem_of_In, repeat_spec in Hrow. subst row. apply repeat_length.
Qed.

Lemma row_lengths_assign_rows a lo hi v :
  map length (train_emotion_model.assign_rows a lo hi v) = map length a.
Proof.
  apply row_lengths_imap. intros i row.
  destruct ((lo <=? i) && (i <? hi))%bool; [apply length_imap | reflexivity].
Qed.

Lemma row_lengths_assign_cols a idx v :
  map length (train_emotion_model.assign_cols a idx v) = map length a.
Proof. apply row_lengths_imap. intros i row. apply length_imap. Qed.

Lemma row_lengths_clip a lo hi :
  map length (train_emotion_model.clip a lo hi) = map length a.
Proof. apply row_lengths_map. intros row. apply length_map. Qed.

Lemma clip_unit_interval (x : Q) :
  (0 <= np.Qminimum (np.Qmaximum x 0) 1 <= 1)%Q.
Proof.
  assert (H0 : (0 <= np.Qmaximum x 0)%Q).
  { destruct (Qmaximum_cases x 0) as [[-> _]|[-> H]];
      [apply Qle_refl | exact H]. }
  destruct (Qminimum_cases (np.Qmaximum x 0) 1) as [[-> H]|[-> H]].
  - split; assumption.
  - split; [discriminate | apply Qle_refl].
Qed.

Lemma synthetic_sample_shape emotion d :
  np.has_shape train_emotion_model.N_MELS train_emotion_model.N_FRAMES
    (train_emotion_model.synthetic_sample emotion d).
Proof.
  unfold train_emotion_model.synthetic_sample.
  eapply has_shape_row_lengths; [|apply has_shape_zeros2].
  rewrite row_lengths_clip, row_lengths_add_cells.
  repeat match goal with
         | |- context [if ?b then _ else _] => destruct b
         end;
    repeat first [ rewrite row_lengths_assign_cols
                 | rewrite row_lengths_assign_rows ];
    reflexivity.
Qed.

(** X20. [create_synthetic_audio_features] returns [num_samples] arrays,
    each of shape ([N_MELS], [N_FRAMES]) with every value clipped into
    [0, 1], for any emotion string and any random draws; a string that is
    none of happy, sad, angry, surprised is treated exactly like neutral. *)
Theorem synthetic_features_are_valid_spectrograms :
  forall (emotion : string) (num_samples : nat)
         (d : nat -> train_emotion_model.synth_draws),
    length (train_emotion_model.create_synthetic_audio_features
              emotion num_samples d) = num_samples /\
    Forall (fun mel_spec =>
              np.has_shape train_emotion_model.N_MELS
                train_emotion_model.N_FRAMES mel_spec /\
              forall x, In x (np.cells mel_spec) -> (0 <= x <= 1)%Q)
           (train_emotion_model.create_synthetic_audio_features
              emotion num_samples d) /\
    (emotion <> "happy"%string -> emotion <> "sad"%string ->
     emotion <> "angry"%string -> emotion <> "surprised"%string ->
     train_emotion_model.create_synthetic_audio_features emotion num_samples d
     = train_emotion_model.create_synthetic_audio_features "neutral" num_samples d).
Proof.
  intros emotion num_samples d.
  unfold train_emotion_model.create_synthetic_audio_features.
  split; [rewrite length_map; apply length_seq|]. split.
  - apply Forall_map, Forall_forall. intros k _. simpl.
    split; [apply synthetic_sample_shape|].
    intros x Hx. unfold train_emotion_model.synthetic_sample,
      train_emotion_model.clip, np.cells in Hx.
    apply in_concat in Hx as (row & Hrow & Hx).
    apply in_map_iff in Hrow as (row0 & <- & _).
    apply in_map_iff in Hx as (y & <- & _).
    apply clip_unit_interval.
  - intros H1 H2 H3 H4. apply map_ext. intros k.
    unfold train_emotion_model.synthetic_sample.
    apply String.eqb_neq in H1, H2, H3, H4. rewrite H1, H2, H3, H4.
    reflexivity.
Qed.

(** ** The script without a saved model *)

Section ScriptWithoutModel.

Context {keras_model rng : Type}.
Variable E : ml_model.environment keras_model rng.


End ScriptWithoutModel.

